(** * The [EarlyStopping] controller of the DNN notebook

    A shallow embedding of the class [EarlyStopping] given as the suggested
    answer in the "Early stopping" section of the DNN notebook, together with
    the skeleton of the [trainer] loop that drives it.  The second part of
    the file embeds the functions and cells of the notebook around it.

    Modelling choices.
    - A validation loss is a Python float.  Only its order, its negation and
      the sum [best_score + delta] are used by the class.  The class is
      embedded twice.  The first embedding takes a loss to be an exact
      rational ([Q]): finite, not NaN, no rounding; [np.Inf], the initial
      value of [val_loss_min], is a separate constructor of [xfloat].  It
      carries the properties that rest on the branch structure of
      [__call__].  The second embedding, [Float], is the same code on floats
      with NaN and the two infinities, for the properties that depend on
      them; on numbers the two agree ([call_embed]).
    - [patience] and [counter] are Python integers, hence [Z].
    - The two effects of the class, [torch.save] and [trace_func], are
      modelled as events returned next to the new object state, in the order
      in which the code performs them.
    - [self] is mutated in place by the code; here it is passed and returned. *)

From Stdlib Require Import ZArith QArith Qabs Lqa Bool List String Sorted Permutation Lia.
Import ListNotations.

Open Scope Z_scope.

(** ** Floats *)

(** A float that is either a number or [np.Inf]. *)
Inductive xfloat : Type :=
| Finite (q : Q)
| Inf.

(** The Python test [x < y] on floats. *)
Definition Qltb (x y : Q) : bool :=
  match (x ?= y)%Q with
  | Lt => true
  | _ => false
  end.

(** ** Effects *)

(** The two f-strings handed to [trace_func], kept as structured data. *)
Inductive message : Type :=
| CounterMsg (counter patience : Z)
    (* f'EarlyStopping counter: {self.counter} out of {self.patience}' *)
| DecreasedMsg (val_loss_min : xfloat) (val_loss : Q)
    (* f'Validation loss decreased ({self.val_loss_min:.6f} --> {val_loss:.6f}).  Saving model ...' *).

Section Controller.

(** The model handed to the controller and what [model.state_dict()] gives. *)
Variable Model : Type.
Variable StateDict : Type.
Variable state_dict : Model -> StateDict.

Inductive event : Type :=
| TraceFunc (m : message)                       (* self.trace_func(...) *)
| TorchSave (sd : StateDict) (path : string)    (* torch.save(sd, path) *).

(** ** The object *)

Record EarlyStopping : Type := mkEarlyStopping {
  patience : Z;
  verbose : bool;
  counter : Z;
  best_score : option Q;
  early_stop : bool;
  val_loss_min : xfloat;
  delta : Q;
  path : string
}.

Definition set_counter (c : Z) (self : EarlyStopping) : EarlyStopping :=
  mkEarlyStopping (patience self) (verbose self) c (best_score self)
    (early_stop self) (val_loss_min self) (delta self) (path self).

Definition set_best_score (b : option Q) (self : EarlyStopping) : EarlyStopping :=
  mkEarlyStopping (patience self) (verbose self) (counter self) b
    (early_stop self) (val_loss_min self) (delta self) (path self).

Definition set_early_stop (e : bool) (self : EarlyStopping) : EarlyStopping :=
  mkEarlyStopping (patience self) (verbose self) (counter self) (best_score self)
    e (val_loss_min self) (delta self) (path self).

Definition set_val_loss_min (v : xfloat) (self : EarlyStopping) : EarlyStopping :=
  mkEarlyStopping (patience self) (verbose self) (counter self) (best_score self)
    (early_stop self) v (delta self) (path self).

(** [EarlyStopping.__init__]: every argument is stored as given, nothing is
    checked.  ([trace_func] is the sink of the [TraceFunc] events.) *)
Definition __init__ (patience : Z) (verbose : bool) (delta : Q) (path : string)
  : EarlyStopping :=
  {| patience := patience;
     verbose := verbose;
     counter := 0;
     best_score := None;
     early_stop := false;
     val_loss_min := Inf;
     delta := delta;
     path := path |}.

(** The default arguments of [__init__]. *)
Definition default_patience : Z := 7.
Definition default_verbose : bool := false.
Definition default_delta : Q := 0%Q.
Definition default_path : string := "checkpoint.pt".

(** [EarlyStopping.save_checkpoint] *)
Definition save_checkpoint (self : EarlyStopping) (val_loss : Q) (model : Model)
  : EarlyStopping * list event :=
  let tr :=
    if verbose self
    then [TraceFunc (DecreasedMsg (val_loss_min self) val_loss)]
    else [] in
  (set_val_loss_min (Finite val_loss) self,
   tr ++ [TorchSave (state_dict model) (path self)]).

(** [EarlyStopping.__call__] *)
Definition __call__ (self : EarlyStopping) (val_loss : Q) (model : Model)
  : EarlyStopping * list event :=
  let score := (- val_loss)%Q in
  match best_score self with
  | None =>
      let self := set_best_score (Some score) self in
      save_checkpoint self val_loss model
  | Some best =>
      if Qltb score (best + delta self)%Q then
        let self := set_counter (counter self + 1) self in
        let tr := [TraceFunc (CounterMsg (counter self) (patience self))] in
        if counter self >=? patience self
        then (set_early_stop true self, tr)
        else (self, tr)
      else
        let self := set_best_score (Some score) self in
        let '(self, evs) := save_checkpoint self val_loss model in
        (set_counter 0 self, evs)
  end.

(** ** Sequences of calls *)

(** The object after the calls [es(val_loss, model)] for the given pairs,
    in order. *)
Definition run (self : EarlyStopping) (calls : list (Q * Model)) : EarlyStopping :=
  fold_left (fun s c => fst (__call__ s (fst c) (snd c))) calls self.

(** The events of each of those calls, one list per call. *)
Fixpoint run_events (self : EarlyStopping) (calls : list (Q * Model))
  : list (list event) :=
  match calls with
  | [] => []
  | (val_loss, model) :: rest =>
      let '(self', evs) := __call__ self val_loss model in
      evs :: run_events self' rest
  end.

(** The states an object constructed by [__init__] can be in. *)
Inductive reachable : EarlyStopping -> Prop :=
| reach_init p v d f : reachable (__init__ p v d f)
| reach_call s val_loss model :
    reachable s -> reachable (fst (__call__ s val_loss model)).

(** The skeleton of [trainer]: one call per epoch, and [break] as soon as
    [early_stop] is set.  The elided body of an epoch is represented by the
    test loss and the model it produces. *)
Fixpoint trainer_loop (early_stopping : EarlyStopping) (epochs : list (Q * Model))
  : EarlyStopping * list (list event) :=
  match epochs with
  | [] => (early_stopping, [])
  | (test_loss, model) :: rest =>
      let '(es, evs) := __call__ early_stopping test_loss model in
      if early_stop es
      then (es, [evs])
      else let '(es', evss) := trainer_loop es rest in (es', evs :: evss)
  end.

(** ** Observations used by the statements *)

Definition is_save (e : event) : bool :=
  match e with
  | TorchSave _ _ => true
  | TraceFunc _ => false
  end.

(** How many times a call wrote the checkpoint. *)
Definition saves (evs : list event) : nat :=
  List.length (filter is_save evs).

(** The branch of [__call__] taken by a call. *)
Inductive branch : Type :=
| First          (* best_score is None *)
| NoImprovement  (* score < best_score + delta *)
| Improvement    (* the else branch *).

Definition branch_of (self : EarlyStopping) (val_loss : Q) : branch :=
  match best_score self with
  | None => First
  | Some best =>
      if Qltb (- val_loss) (best + delta self)%Q then NoImprovement else Improvement
  end.

End Controller.

Arguments TraceFunc {StateDict} m.
Arguments TorchSave {StateDict} sd path.
Arguments save_checkpoint {Model StateDict} state_dict self val_loss model.
Arguments __call__ {Model StateDict} state_dict self val_loss model.
Arguments run {Model StateDict} state_dict self calls.
Arguments run_events {Model StateDict} state_dict self calls.
Arguments reachable {Model StateDict} state_dict _.
Arguments reach_init {Model StateDict} state_dict p v d f.
Arguments reach_call {Model StateDict} state_dict s val_loss model _.
Arguments trainer_loop {Model StateDict} state_dict early_stopping epochs.
Arguments is_save {StateDict} e.
Arguments saves {StateDict} evs.

(** Strictly decreasing and strictly increasing sequences of losses. *)
Definition strictly_decreasing (l : list Q) : Prop :=
  Sorted (fun x y => (y < x)%Q) l.

Definition strictly_increasing (l : list Q) : Prop :=
  Sorted Qlt l.

(** A concrete instance for the examples: a model is given by its list of
    weights, and its state dict is that list. *)
Definition Weights : Type := list Z.

Definition weights_state_dict (model : Weights) : Weights := model.

(** ** More observations on the controller *)

(** The branch taken by each call of a sequence. *)
Fixpoint run_branches {Model StateDict : Type} (state_dict : Model -> StateDict)
  (self : EarlyStopping) (calls : list (Q * Model)) : list branch :=
  match calls with
  | [] => []
  | (val_loss, model) :: rest =>
      branch_of self val_loss
        :: run_branches state_dict (fst (__call__ state_dict self val_loss model)) rest
  end.

(** The number of calls without improvement at the end of a sequence. *)
Definition streak (branches : list branch) : Z :=
  fold_left (fun n b => match b with NoImprovement => n + 1 | _ => 0 end)
    branches 0.

(** What the checkpoint file holds after the given events: the state dict
    and the path of the last [torch.save]. *)
Definition last_checkpoint {StateDict : Type} (evs : list (event StateDict))
  : option (StateDict * string) :=
  fold_left (fun acc e => match e with
                          | TorchSave sd f => Some (sd, f)
                          | TraceFunc _ => acc
                          end) evs None.

(** * The controller on floats with NaN and infinities

    The same class, with a loss, [best_score], [val_loss_min] and [delta]
    ranging over the numbers, the two infinities and NaN.  Arithmetic on
    numbers stays exact; the special values follow IEEE 754, as Python's
    floats do: NaN is absorbing for [-x] and [x + y], the sum of the two
    infinities is NaN, and every comparison with NaN is false. *)

Module Float.

Inductive pyfloat : Type :=
| Num (q : Q)
| PInf          (* float('inf'), np.Inf *)
| NInf          (* -float('inf') *)
| NaN.

(** [-x] *)
Definition neg (x : pyfloat) : pyfloat :=
  match x with
  | Num q => Num (- q)
  | PInf => NInf
  | NInf => PInf
  | NaN => NaN
  end.

(** [x + y] *)
Definition add (x y : pyfloat) : pyfloat :=
  match x, y with
  | NaN, _ | _, NaN => NaN
  | PInf, NInf | NInf, PInf => NaN
  | PInf, _ | _, PInf => PInf
  | NInf, _ | _, NInf => NInf
  | Num a, Num b => Num (a + b)
  end.

(** [x < y] *)
Definition ltb (x y : pyfloat) : bool :=
  match x, y with
  | Num a, Num b => Qltb a b
  | NInf, Num _ | NInf, PInf | Num _, PInf => true
  | _, _ => false
  end.

(** [x <= y], as a proposition. *)
Definition le (x y : pyfloat) : Prop :=
  match x, y with
  | Num a, Num b => (a <= b)%Q
  | NInf, Num _ | NInf, PInf | NInf, NInf => True
  | Num _, PInf | PInf, PInf => True
  | _, _ => False
  end.

(** [math.isnan(x)] *)
Definition is_nan (x : pyfloat) : bool :=
  match x with
  | NaN => true
  | _ => false
  end.

Inductive message : Type :=
| CounterMsg (counter patience : Z)
| DecreasedMsg (val_loss_min val_loss : pyfloat).

Section Controller.

Variable Model : Type.
Variable StateDict : Type.
Variable state_dict : Model -> StateDict.

Inductive event : Type :=
| TraceFunc (m : message)
| TorchSave (sd : StateDict) (path : string).

Record EarlyStopping : Type := mkEarlyStopping {
  patience : Z;
  verbose : bool;
  counter : Z;
  best_score : option pyfloat;
  early_stop : bool;
  val_loss_min : pyfloat;
  delta : pyfloat;
  path : string
}.

Definition set_counter (c : Z) (self : EarlyStopping) : EarlyStopping :=
  mkEarlyStopping (patience self) (verbose self) c (best_score self)
    (early_stop self) (val_loss_min self) (delta self) (path self).

Definition set_best_score (b : option pyfloat) (self : EarlyStopping)
  : EarlyStopping :=
  mkEarlyStopping (patience self) (verbose self) (counter self) b
    (early_stop self) (val_loss_min self) (delta self) (path self).

Definition set_early_stop (e : bool) (self : EarlyStopping) : EarlyStopping :=
  mkEarlyStopping (patience self) (verbose self) (counter self) (best_score self)
    e (val_loss_min self) (delta self) (path self).

Definition set_val_loss_min (v : pyfloat) (self : EarlyStopping) : EarlyStopping :=
  mkEarlyStopping (patience self) (verbose self) (counter self) (best_score self)
    (early_stop self) v (delta self) (path self).

(** [EarlyStopping.__init__] *)
Definition __init__ (patience : Z) (verbose : bool) (delta : pyfloat)
  (path : string) : EarlyStopping :=
  {| patience := patience;
     verbose := verbose;
     counter := 0;
     best_score := None;
     early_stop := false;
     val_loss_min := PInf;
     delta := delta;
     path := path |}.

(** [EarlyStopping.save_checkpoint] *)
Definition save_checkpoint (self : EarlyStopping) (val_loss : pyfloat)
  (model : Model) : EarlyStopping * list event :=
  let tr :=
    if verbose self
    then [TraceFunc (DecreasedMsg (val_loss_min self) val_loss)]
    else [] in
  (set_val_loss_min val_loss self,
   tr ++ [TorchSave (state_dict model) (path self)]).

(** [EarlyStopping.__call__] *)
Definition __call__ (self : EarlyStopping) (val_loss : pyfloat) (model : Model)
  : EarlyStopping * list event :=
  let score := neg val_loss in
  match best_score self with
  | None =>
      let self := set_best_score (Some score) self in
      save_checkpoint self val_loss model
  | Some best =>
      if ltb score (add best (delta self)) then
        let self := set_counter (counter self + 1) self in
        let tr := [TraceFunc (CounterMsg (counter self) (patience self))] in
        if counter self >=? patience self
        then (set_early_stop true self, tr)
        else (self, tr)
      else
        let self := set_best_score (Some score) self in
        let '(self, evs) := save_checkpoint self val_loss model in
        (set_counter 0 self, evs)
  end.

(** The object after a sequence of calls. *)
Definition run (self : EarlyStopping) (calls : list (pyfloat * Model))
  : EarlyStopping :=
  fold_left (fun s c => fst (__call__ s (fst c) (snd c))) calls self.

Definition is_save (e : event) : bool :=
  match e with
  | TorchSave _ _ => true
  | TraceFunc _ => false
  end.

(** How many times a call wrote the checkpoint. *)
Definition saves (evs : list event) : nat :=
  List.length (filter is_save evs).

(** The loss of the most recent call that wrote the checkpoint, [acc] when
    no call of the sequence did. *)
Fixpoint last_saved_loss (self : EarlyStopping) (calls : list (pyfloat * Model))
  (acc : option pyfloat) : option pyfloat :=
  match calls with
  | [] => acc
  | (val_loss, model) :: rest =>
      let '(self', evs) := __call__ self val_loss model in
      last_saved_loss self' rest
        (if (0 <? saves evs)%nat then Some val_loss else acc)
  end.

End Controller.

Arguments TraceFunc {StateDict} m.
Arguments TorchSave {StateDict} sd path.
Arguments save_checkpoint {Model StateDict} state_dict self val_loss model.
Arguments __call__ {Model StateDict} state_dict self val_loss model.
Arguments run {Model StateDict} state_dict self calls.
Arguments is_save {StateDict} e.
Arguments saves {StateDict} evs.
Arguments last_saved_loss {Model StateDict} state_dict self calls acc.

End Float.

(** ** The two embeddings side by side *)

(** A value of the first embedding as a float. *)
Definition embed_float (x : xfloat) : Float.pyfloat :=
  match x with
  | Finite q => Float.Num q
  | Inf => Float.PInf
  end.

Definition embed_message (m : message) : Float.message :=
  match m with
  | CounterMsg c p => Float.CounterMsg c p
  | DecreasedMsg old new => Float.DecreasedMsg (embed_float old) (Float.Num new)
  end.

Definition embed_event {StateDict : Type} (e : event StateDict)
  : Float.event StateDict :=
  match e with
  | TraceFunc m => Float.TraceFunc (embed_message m)
  | TorchSave sd f => Float.TorchSave sd f
  end.

Definition embed (self : EarlyStopping) : Float.EarlyStopping :=
  {| Float.patience := patience self;
     Float.verbose := verbose self;
     Float.counter := counter self;
     Float.best_score := option_map Float.Num (best_score self);
     Float.early_stop := early_stop self;
     Float.val_loss_min := embed_float (val_loss_min self);
     Float.delta := Float.Num (delta self);
     Float.path := path self |}.

(** * The rest of the practical notebook

    The functions around the controller: [binary_accuracy], the [train] and
    [test] loops, [create_dataloaders], and the cells that encode
    the labels and balance the dataset.  What belongs to PyTorch (the
    network, the loss, the optimizer, [TensorDataset], [DataLoader]) is a
    parameter.  [print], timing and plotting are left out.  A tensor is
    modelled by the list of its entries, floats by exact rationals as
    before, and the NumPy random generator by the numbers it draws. *)

(** ** Python exceptions *)

Inductive exn : Type :=
| ZeroDivisionError
| UnboundLocalError
| ValueError
| IndexError.

Inductive result (A : Type) : Type :=
| Ok (a : A)
| Raise (e : exn).

Arguments Ok {A} a.
Arguments Raise {A} e.

Definition bind {A B : Type} (r : result A) (k : A -> result B) : result B :=
  match r with
  | Ok a => k a
  | Raise e => Raise e
  end.

Notation "x <- r ;; k" := (bind r (fun x => k))
  (at level 61, r at next level, right associativity).

(** [a / b] on Python integers. *)
Definition true_div (a b : Z) : result Q :=
  if b =? 0 then Raise ZeroDivisionError else Ok (inject_Z a / inject_Z b)%Q.

(** [x / n] for a float [x] and an integer [n]. *)
Definition float_div (x : Q) (n : Z) : result Q :=
  if n =? 0 then Raise ZeroDivisionError else Ok (x / inject_Z n)%Q.

(** [int(x)] for a float [x]: truncation towards zero. *)
Definition int_of_float (x : Q) : Z := Z.quot (Qnum x) (QDen x).

Definition len {A : Type} (l : list A) : Z := Z.of_nat (List.length l).

(** The position at which a slice bound [i] falls in a sequence of length
    [n]: negative bounds count from the end, and bounds are clipped. *)
Definition slice_bound (n i : Z) : nat :=
  Z.to_nat (if i <? 0 then Z.max (n + i) 0 else Z.min i n).

(** [l[:i]] *)
Definition slice_to {A : Type} (l : list A) (i : Z) : list A :=
  firstn (slice_bound (len l) i) l.

(** [l[i:]] *)
Definition slice_from {A : Type} (l : list A) (i : Z) : list A :=
  skipn (slice_bound (len l) i) l.

(** ** [binary_accuracy] *)

(** The entries of a tensor. *)
Definition tensor : Type := list Q.

Definition numel (t : tensor) : Z := len t.

(** An entry of [torch.abs(pred - ground_truth) < .1]. *)
Definition is_close (p g : Q) : bool := Qltb (Qabs (p - g)) 0.1.

(** [torch.where(mask)[0].numel()]: the number of true entries. *)
Definition where_numel (mask : list bool) : Z :=
  len (filter (fun b : bool => b) mask).

(** [binary_accuracy(pred, ground_truth)], for tensors of the same shape,
    given by their entries in the same order.  (On tensors of different
    shapes torch broadcasts or raises; that case is not embedded, and the
    statements on the accuracy assume lists of the same length.) *)
Definition binary_accuracy (pred ground_truth : tensor) : result Q :=
  true_div
    (where_numel (map (fun pg => is_close (fst pg) (snd pg))
                      (combine pred ground_truth)))
    (numel pred).

(** ** [train], [test] and [create_dataloaders] *)

Section Loops.

(** The model together with the state of its optimizer. *)
Variable Net : Type.
(** A batch of inputs. *)
Variable Input : Type.
(** [model(X)] *)
Variable forward : Net -> Input -> tensor.
(** [loss_fn(pred_y, y)], as a number. *)
Variable loss_fn : tensor -> tensor -> Q.
(** [loss.backward(); optimizer.step(); optimizer.zero_grad()] for the loss
    of the batch [(X, y)]. *)
Variable optimizer_step : Net -> Input -> tensor -> Net.

Definition batch : Type := (Input * tensor)%type.

(** The loop of [test].  [i] is the next index of [enumerate]; the variable
    [num_batches] is unbound ([None]) until the first iteration. *)
Fixpoint test_for (model : Net) (dataloader : list batch) (i : Z)
  (num_batches : option Z) (test_loss test_accuracy : Q)
  : result (option Z * (Q * Q)) :=
  match dataloader with
  | [] => Ok (num_batches, (test_loss, test_accuracy))
  | (X, y) :: rest =>
      let num_batches := Some i in
      let pred_y := forward model X in
      let test_loss := (test_loss + loss_fn pred_y y)%Q in
      a <- binary_accuracy pred_y y ;;
      test_for model rest (i + 1) num_batches test_loss (test_accuracy + a)%Q
  end.

(** [test(dataloader, model, loss_fn, device)] *)
Definition test (dataloader : list batch) (model : Net) : result (Q * Q) :=
  st <- test_for model dataloader 0 None 0 0 ;;
  match fst st with
  | None => Raise UnboundLocalError
  | Some num_batches =>
      test_loss <- float_div (fst (snd st)) num_batches ;;
      test_accuracy <- float_div (snd (snd st)) num_batches ;;
      Ok (test_loss, test_accuracy)
  end.

(** The loop of [train]; the model is updated after each batch. *)
Fixpoint train_for (model : Net) (dataloader : list batch) (i : Z)
  (num_batches : option Z) (train_loss train_accuracy : Q)
  : result (Net * (option Z * (Q * Q))) :=
  match dataloader with
  | [] => Ok (model, (num_batches, (train_loss, train_accuracy)))
  | (X, y) :: rest =>
      let num_batches := Some i in
      let pred_y := forward model X in
      let loss := loss_fn pred_y y in
      let model := optimizer_step model X y in
      let train_loss := (train_loss + loss)%Q in
      a <- binary_accuracy pred_y y ;;
      train_for model rest (i + 1) num_batches train_loss (train_accuracy + a)%Q
  end.

(** [train(dataloader, model, loss_fn, optimizer, device)]; the updated
    model is returned next to the result. *)
Definition train (dataloader : list batch) (model : Net)
  : result (Net * (Q * Q)) :=
  st <- train_for model dataloader 0 None 0 0 ;;
  match fst (snd st) with
  | None => Raise UnboundLocalError
  | Some num_batches =>
      train_loss <- float_div (fst (snd (snd st))) num_batches ;;
      train_accuracy <- float_div (snd (snd (snd st))) num_batches ;;
      Ok (fst st, (train_loss, train_accuracy))
  end.

(** The rows of [train_x] and of [train_y], and PyTorch's dataset classes. *)
Variable Sample : Type.
Variable Target : Type.
Variable Dataset : Type.
Variable TensorDataset : list Sample -> list Target -> Dataset.
(** The batches a [DataLoader] yields, the same at each iteration over it
    (the loaders are created without shuffling). *)
Variable DataLoader : Dataset -> Z -> list batch.

(** [create_dataloaders(train_x, train_y, batch_size, val_split)] *)
Definition create_dataloaders (train_x : list Sample) (train_y : list Target)
  (batch_size : Z) (val_split : Q) : list batch * list batch :=
  let idx := int_of_float ((1 - val_split) * inject_Z (len train_x))%Q in
  let train_dataset :=
    TensorDataset (slice_to train_x idx) (slice_to train_y idx) in
  let test_dataset :=
    TensorDataset (slice_from train_x idx) (slice_from train_y idx) in
  let train_dataloader := DataLoader train_dataset batch_size in
  let test_dataloader := DataLoader test_dataset batch_size in
  (train_dataloader, test_dataloader).

Definition default_batch_size : Z := 64.
Definition default_val_split : Q := 0.2%Q.

End Loops.

Arguments test_for {Net Input} forward loss_fn model dataloader i num_batches
  test_loss test_accuracy.
Arguments test {Net Input} forward loss_fn dataloader model.
Arguments train_for {Net Input} forward loss_fn optimizer_step model dataloader
  i num_batches train_loss train_accuracy.
Arguments train {Net Input} forward loss_fn optimizer_step dataloader model.
Arguments create_dataloaders {Input Sample Target Dataset} TensorDataset
  DataLoader train_x train_y batch_size val_split.
(** The sum of a list of floats, accumulated from the left as the loops do. *)
Definition Qsum (l : list Q) : Q := fold_left Qplus l 0%Q.

(** The losses and the accuracies of the batches of a loader under a fixed
    model. *)
Definition batch_losses {Net Input : Type} (forward : Net -> Input -> tensor)
  (loss_fn : tensor -> tensor -> Q) (model : Net)
  (dataloader : list (batch Input)) : list Q :=
  map (fun b => loss_fn (forward model (fst b)) (snd b)) dataloader.

(** The accuracy of a batch, where its prediction is not empty. *)
Definition hits (pred ground_truth : tensor) : Z :=
  where_numel (map (fun pg => is_close (fst pg) (snd pg))
                 (combine pred ground_truth)).

Definition batch_accuracies {Net Input : Type} (forward : Net -> Input -> tensor)
  (model : Net) (dataloader : list (batch Input)) : list Q :=
  map (fun b => (inject_Z (hits (forward model (fst b)) (snd b)) /
                 inject_Z (numel (forward model (fst b))))%Q) dataloader.

(** What [enumerate], counting from [i], leaves in the variable
    [num_batches] after a loop over the loader. *)
Definition last_index {Input : Type} (i : Z) (num_batches : option Z)
  (dataloader : list (batch Input)) : option Z :=
  match dataloader with
  | [] => num_batches
  | _ => Some (i + len dataloader - 1)
  end.

(** The losses and the accuracies of the batches as [train] sees them: each
    batch is evaluated by the model that the steps on the batches before it
    have produced. *)
Fixpoint train_losses {Net Input : Type} (forward : Net -> Input -> tensor)
  (loss_fn : tensor -> tensor -> Q)
  (optimizer_step : Net -> Input -> tensor -> Net) (model : Net)
  (dataloader : list (batch Input)) : list Q :=
  match dataloader with
  | [] => []
  | (X, y) :: rest =>
      loss_fn (forward model X) y
        :: train_losses forward loss_fn optimizer_step
             (optimizer_step model X y) rest
  end.

Fixpoint train_accuracies {Net Input : Type} (forward : Net -> Input -> tensor)
  (optimizer_step : Net -> Input -> tensor -> Net) (model : Net)
  (dataloader : list (batch Input)) : list Q :=
  match dataloader with
  | [] => []
  | (X, y) :: rest =>
      (inject_Z (hits (forward model X) y) / inject_Z (numel (forward model X)))%Q
        :: train_accuracies forward optimizer_step (optimizer_step model X y) rest
  end.

(** A concrete network for the examples: one weight, multiplied with each
    input; the loss is the summed absolute error; a step adds the number of
    targets to the weight. *)
Definition scale_forward (w : Q) (X : list Q) : tensor := map (Qmult w) X.

Definition abs_loss (pred y : tensor) : Q :=
  Qsum (map (fun pg => Qabs (fst pg - snd pg)) (combine pred y)).

Definition count_step (w : Q) (X : list Q) (y : tensor) : Q :=
  (w + inject_Z (len y))%Q.

(** ** Labels *)

(** [x in l] for a list of strings. *)
Definition contains (x : string) (l : list string) : bool :=
  existsb (String.eqb x) l.

(** [.astype(int)] on a boolean. *)
Definition astype_int (b : bool) : Z := if b then 1 else 0.

(** The label column of the practical: whether Ag is in ['Elements']. *)
Definition ag_labels (Elements : list (list string)) : list Z :=
  map (fun elements => astype_int (contains "Ag" elements)) Elements.

(** [np.transpose(np.array(rows))] for rows of [ncols] entries each; an
    empty list of rows is an array of shape (0,), which stays empty. *)
Definition np_transpose (ncols : nat) (rows : list (list Z)) : list (list Z) :=
  match rows with
  | [] => []
  | _ => map (fun j => map (fun row => nth j row 0) rows) (seq 0 ncols)
  end.

(** The labels of the exercise: one row per element, then transposed. *)
Definition element_list : list string :=
  ["Zn"; "Sb"; "Si"; "Fe"; "Cu"; "Bi"]%string.

Definition encode_elements (element_list : list string)
  (Elements : list (list string)) : list (list Z) :=
  let train_y :=
    map (fun element =>
           map (fun elements => astype_int (contains element elements)) Elements)
        element_list in
  np_transpose (List.length Elements) train_y.

(** ** Balancing the dataset *)

(** [np.where(train_y == v)[0]] for a column of labels. *)
Definition np_where_eq (train_y : list Z) (v : Z) : list nat :=
  filter (fun i => nth i train_y (v + 1) =? v) (seq 0 (List.length train_y)).

(** [l[ids]] for an array of indices. *)
Fixpoint take {A : Type} (l : list A) (ids : list nat) : result (list A) :=
  match ids with
  | [] => Ok []
  | i :: rest =>
      match nth_error l i with
      | None => Raise IndexError
      | Some x => xs <- take l rest ;; Ok (x :: xs)
      end
  end.

Section Balance.

(** The generator: the [j]-th number behind a draw of [np.random.choice],
    and the rearrangement made by [np.random.shuffle]. *)
Variable rng : nat -> nat.
Variable shuffle : list nat -> list nat.

(** [np.random.choice(a, size)]: [size] entries of [a], with replacement. *)
Definition random_choice (a : list nat) (size : nat) : result (list nat) :=
  match a, size with
  | [], S _ => Raise ValueError
  | _, _ =>
      Ok (map (fun j => nth (rng j mod List.length a) a 0%nat) (seq 0 size))
  end.

(** The cell that downsamples 'no Ag' to the number of 'with Ag'. *)
Definition downsample {A : Type} (train_x : list A) (train_y : list Z)
  : result (list A * list Z) :=
  let id_no_Ag := np_where_eq train_y 0 in
  let id_with_Ag := np_where_eq train_y 1 in
  id_no_Ag_downsample <- random_choice id_no_Ag (List.length id_with_Ag) ;;
  let id_downsample := shuffle (id_with_Ag ++ id_no_Ag_downsample) in
  train_x_balanced <- take train_x id_downsample ;;
  train_y_balanced <- take train_y id_downsample ;;
  Ok (train_x_balanced, train_y_balanced).

End Balance.

(** * Properties *)

(** ** Floats *)

Lemma Qltb_true x y : Qltb x y = true <-> (x < y)%Q.
Proof.
  unfold Qltb. rewrite Qlt_alt.
  destruct (x ?= y)%Q; split; congruence.
Qed.

Lemma Qltb_false x y : Qltb x y = false <-> (y <= x)%Q.
Proof.
  split; intros H.
  - apply Qnot_lt_le. intros L. apply Qltb_true in L. congruence.
  - destruct (Qltb x y) eqn:E; [|reflexivity].
    apply Qltb_true in E. exfalso. apply (Qlt_not_le _ _ E H).
Qed.

Lemma Qopp_opp_eq (q : Q) : (- - q)%Q = q.
Proof. destruct q as [n d]. unfold Qopp. cbn. now rewrite Z.opp_involutive. Qed.

Section Properties.

Context {Model StateDict : Type} (state_dict : Model -> StateDict).


(** ** One call, branch by branch *)

Lemma call_First s v m :
  branch_of s v = First ->
  __call__ state_dict s v m =
    (set_val_loss_min (Finite v) (set_best_score (Some (- v)%Q) s),
     (if verbose s then [TraceFunc (DecreasedMsg (val_loss_min s) v)] else [])
       ++ [TorchSave (state_dict m) (path s)]).
Proof.
  unfold branch_of, __call__, save_checkpoint.
  destruct (best_score s) as [b|]; [|reflexivity].
  destruct (Qltb _ _); discriminate.
Qed.

Lemma call_NoImprovement s v m :
  branch_of s v = NoImprovement ->
  __call__ state_dict s v m =
    (let s1 := set_counter (counter s + 1) s in
     if counter s + 1 >=? patience s then set_early_stop true s1 else s1,
     [TraceFunc (CounterMsg (counter s + 1) (patience s))]).
Proof.
  unfold branch_of, __call__.
  destruct (best_score s) as [b|]; [|discriminate].
  destruct (Qltb _ _); [|discriminate]. intros _. cbn.
  destruct (counter s + 1 >=? patience s); reflexivity.
Qed.

Lemma call_Improvement s v m :
  branch_of s v = Improvement ->
  __call__ state_dict s v m =
    (set_counter 0 (set_val_loss_min (Finite v) (set_best_score (Some (- v)%Q) s)),
     (if verbose s then [TraceFunc (DecreasedMsg (val_loss_min s) v)] else [])
       ++ [TorchSave (state_dict m) (path s)]).
Proof.
  unfold branch_of, __call__, save_checkpoint.
  destruct (best_score s) as [b|]; [|discriminate].
  destruct (Qltb _ _); [discriminate|reflexivity].
Qed.

Lemma saves_checkpoint (b : bool) (msg : message) (sd : StateDict) f :
  saves ((if b then [TraceFunc msg] else []) ++ [TorchSave sd f]) = 1%nat.
Proof. destruct b; reflexivity. Qed.

(** The three branches are the only ones; [destruct_call s v m] splits a goal
    about a call accordingly and rewrites the call. *)
Ltac destruct_call s v m :=
  let B := fresh "B" in
  destruct (branch_of s v) eqn:B;
  [ rewrite (call_First s v m B)
  | rewrite (call_NoImprovement s v m B)
  | rewrite (call_Improvement s v m B) ];
  cbn [fst snd].

Lemma branch_First s v : branch_of s v = First <-> best_score s = None.
Proof.
  unfold branch_of. destruct (best_score s).
  - destruct (Qltb _ _); split; discriminate.
  - tauto.
Qed.

Lemma branch_NoImprovement s v :
  branch_of s v = NoImprovement <->
  exists b, best_score s = Some b /\ (- v < b + delta s)%Q.
Proof.
  unfold branch_of. destruct (best_score s) as [b|].
  - destruct (Qltb _ _) eqn:E; split.
    + intros _. exists b. split; [reflexivity|]. now apply Qltb_true.
    + reflexivity.
    + discriminate.
    + intros (b' & [= <-] & L). apply Qltb_true in L. congruence.
  - split; [discriminate|]. intros (b & [=] & _).
Qed.

Lemma branch_Improvement s v :
  branch_of s v = Improvement <->
  exists b, best_score s = Some b /\ (b + delta s <= - v)%Q.
Proof.
  unfold branch_of. destruct (best_score s) as [b|].
  - destruct (Qltb _ _) eqn:E; split.
    + discriminate.
    + intros (b' & [= <-] & L). apply Qltb_false in L. congruence.
    + intros _. exists b. split; [reflexivity|]. now apply Qltb_false.
    + reflexivity.
  - split; [discriminate|]. intros (b & [=] & _).
Qed.

(** A call never touches the configuration. *)
Lemma call_config s v m :
  let s' := fst (__call__ state_dict s v m) in
  patience s' = patience s /\ delta s' = delta s /\
  verbose s' = verbose s /\ path s' = path s.
Proof.
  destruct_call s v m; cbn; auto.
  destruct (counter s + 1 >=? patience s); cbn; auto.
Qed.

(** ** Sequences of calls *)

Lemma run_nil s : run state_dict s [] = s.
Proof. reflexivity. Qed.

Lemma run_cons s c cs :
  run state_dict s (c :: cs) =
  run state_dict (fst (__call__ state_dict s (fst c) (snd c))) cs.
Proof. reflexivity. Qed.

Lemma run_snoc s cs c :
  run state_dict s (cs ++ [c]) =
  fst (__call__ state_dict (run state_dict s cs) (fst c) (snd c)).
Proof. unfold run. now rewrite fold_left_app. Qed.

Lemma run_reachable s cs :
  reachable state_dict s -> reachable state_dict (run state_dict s cs).
Proof.
  revert s. induction cs as [|c cs IH]; intros s R; [exact R|].
  rewrite run_cons. apply IH. now constructor.
Qed.

Lemma run_config s cs :
  patience (run state_dict s cs) = patience s /\
  delta (run state_dict s cs) = delta s.
Proof.
  revert s. induction cs as [|c cs IH]; intros s; [now split|].
  rewrite run_cons.
  destruct (IH (fst (__call__ state_dict s (fst c) (snd c)))) as [-> ->].
  destruct (call_config s (fst c) (snd c)) as (? & ? & _). now split.
Qed.

(** ** Invariants of reachable states *)

(** Before the first call nothing has moved. *)
Lemma reachable_fresh s :
  reachable state_dict s -> best_score s = None ->
  counter s = 0 /\ early_stop s = false /\ val_loss_min s = Inf.
Proof.
  induction 1 as [p v d f | s v m R IH]; [now cbn|].
  destruct_call s v m; cbn; try discriminate.
  apply branch_NoImprovement in B as (b & Hb & _).
  destruct (counter s + 1 >=? patience s); cbn; congruence.
Qed.

(** While [early_stop] is unset the counter is below a positive patience. *)
Lemma reachable_counter_lt s :
  reachable state_dict s -> 1 <= patience s ->
  early_stop s = false -> counter s < patience s.
Proof.
  induction 1 as [p v d f | s v m R IH]; [cbn; lia|].
  destruct (call_config s v m) as (-> & _).
  destruct_call s v m; cbn; auto; try lia.
  destruct (counter s + 1 >=? patience s) eqn:E; cbn; [discriminate|lia].
Qed.

(** [val_loss_min] is the loss whose negation is [best_score]. *)
Lemma reachable_val_loss_min s :
  reachable state_dict s ->
  match best_score s with
  | None => val_loss_min s = Inf
  | Some b => val_loss_min s = Finite (- b)
  end.
Proof.
  induction 1 as [p v d f | s v m R IH]; [reflexivity|].
  destruct_call s v m; cbn; try now rewrite Qopp_opp_eq.
  destruct (counter s + 1 >=? patience s); exact IH.
Qed.

Lemma reachable_counter_nonneg s :
  reachable state_dict s -> 0 <= counter s.
Proof.
  induction 1 as [p v d f | s v m R IH]; [cbn; lia|].
  destruct_call s v m; cbn; try lia.
  destruct (counter s + 1 >=? patience s); cbn; lia.
Qed.

Lemma call_best_score_some s v m :
  exists b, best_score (fst (__call__ state_dict s v m)) = Some b.
Proof.
  destruct_call s v m; cbn; eauto.
  apply branch_NoImprovement in B as (b & Hb & _). exists b.
  destruct (counter s + 1 >=? patience s); exact Hb.
Qed.

Lemma run_best_score_some s cs :
  (exists b, best_score s = Some b) ->
  exists b, best_score (run state_dict s cs) = Some b.
Proof.
  revert s. induction cs as [|c cs IH]; intros s H; [exact H|].
  rewrite run_cons. apply IH, call_best_score_some.
Qed.

(** How many times a call writes the checkpoint, by branch. *)
Lemma call_saves s v m :
  saves (snd (__call__ state_dict s v m)) =
  match branch_of s v with
  | NoImprovement => 0%nat
  | _ => 1%nat
  end.
Proof.
  destruct_call s v m; [apply saves_checkpoint | reflexivity | apply saves_checkpoint].
Qed.

Lemma run_events_length s cs :
  List.length (run_events state_dict s cs) = List.length cs.
Proof.
  revert s. induction cs as [|[v m] cs IH]; intros s; [reflexivity|].
  cbn [run_events]. destruct (__call__ state_dict s v m) as [s' evs].
  cbn. now rewrite IH.
Qed.

Lemma Forall_firstn {A} (P : A -> Prop) k l :
  Forall P l -> Forall P (firstn k l).
Proof.
  intros H. revert k. induction H as [|x l Hx H IH]; intros [|k]; cbn; auto.
Qed.

(** *** Losses that keep decreasing *)

Lemma decreasing_run cs : forall s,
  (delta s <= 0)%Q -> early_stop s = false ->
  strictly_decreasing (map fst cs) ->
  (forall b c, best_score s = Some b -> hd_error cs = Some c -> (fst c < - b)%Q) ->
  (forall k, early_stop (run state_dict s (firstn k cs)) = false) /\
  Forall (fun evs => saves evs = 1%nat) (run_events state_dict s cs).
Proof.
  induction cs as [|[v m] cs IH]; intros s Hd Hs Hsort Hbest.
  - split; [intros [|k]; exact Hs | constructor].
  - assert (B : branch_of s v <> NoImprovement).
    { intros B. apply branch_NoImprovement in B as (b & Hb & L).
      specialize (Hbest b (v, m) Hb eq_refl). cbn in Hbest. lra. }
    pose proof (call_saves s v m) as Hsv.
    destruct (call_config s v m) as (_ & Hd' & _).
    assert (Hs' : early_stop (fst (__call__ state_dict s v m)) = false).
    { revert B. destruct_call s v m; cbn; congruence. }
    assert (Hb' : best_score (fst (__call__ state_dict s v m)) = Some (- v)%Q).
    { revert B. destruct_call s v m; cbn; congruence. }
    cbn [map fst] in Hsort. apply Sorted_inv in Hsort as [Hsort Hhd].
    destruct (IH (fst (__call__ state_dict s v m))) as [IH1 IH2]; auto.
    { now rewrite Hd'. }
    { intros b c Hb Hc. rewrite Hb' in Hb. injection Hb as <-.
      rewrite Qopp_opp_eq.
      destruct cs as [|c' cs']; [discriminate|]. injection Hc as <-.
      now apply HdRel_inv in Hhd. }
    split.
    + intros [|k]; [exact Hs|]. cbn [firstn]. rewrite run_cons. apply IH1.
    + cbn [run_events].
      destruct (__call__ state_dict s v m) as [s' evs]. cbn [fst snd] in *.
      constructor; [|exact IH2].
      rewrite Hsv. destruct (branch_of s v); congruence.
Qed.

(** *** Losses that all stay above the best one *)

Lemma worse_run cs : forall s b,
  best_score s = Some b -> (0 <= delta s)%Q ->
  Forall (fun c => (- b < fst c)%Q) cs ->
  let s' := run state_dict s cs in
  best_score s' = Some b /\
  counter s' = counter s + Z.of_nat (List.length cs) /\
  early_stop s' =
    early_stop s ||
    match cs with
    | [] => false
    | _ => patience s <=? counter s + Z.of_nat (List.length cs)
    end.
Proof.
  induction cs as [|[v m] cs IH]; intros s b Hb Hd Hall s'; subst s'.
  - cbn. repeat split; [exact Hb | lia | now rewrite orb_false_r].
  - apply Forall_cons_iff in Hall as [Hv Hall]. cbn [fst] in Hv.
    assert (B : branch_of s v = NoImprovement).
    { apply branch_NoImprovement. exists b. split; [exact Hb|]. lra. }
    rewrite run_cons. cbn [fst snd].
    destruct (call_config s v m) as (HP & HD & _).
    rewrite (call_NoImprovement s v m B) in *. cbn [fst] in *.
    set (s1 := if counter s + 1 >=? patience s
               then set_early_stop true (set_counter (counter s + 1) s)
               else set_counter (counter s + 1) s) in *.
    assert (H1 : best_score s1 = Some b /\ counter s1 = counter s + 1 /\
                 early_stop s1 = early_stop s || (patience s <=? counter s + 1)).
    { subst s1. rewrite Z.geb_leb.
      destruct (patience s <=? counter s + 1); cbn;
        repeat split; auto using orb_true_r, orb_false_r. }
    destruct H1 as (Hb1 & Hc1 & He1).
    destruct (IH s1 b Hb1) as (IHb & IHc & IHe); [now rewrite HD | exact Hall |].
    split; [exact IHb|]. split.
    + rewrite IHc, Hc1. cbn [List.length]. lia.
    + rewrite IHe, He1, HP, Hc1. cbn [List.length].
      destruct cs as [|c cs]; [now rewrite orb_false_r|].
      rewrite <- orb_assoc. f_equal.
      repeat match goal with
             | |- context [?x <=? ?y] => destruct (Z.leb_spec x y)
             end; cbn [orb]; try reflexivity; lia.
Qed.

(** *** The trainer loop *)

(** The loop makes the calls of a prefix of the epochs, and none of them is
    made on an object whose [early_stop] is set. *)
Lemma trainer_loop_prefix epochs : forall s,
  early_stop s = false ->
  exists k,
    trainer_loop state_dict s epochs =
      (run state_dict s (firstn k epochs),
       run_events state_dict s (firstn k epochs)) /\
    (forall j, (j < k)%nat ->
       early_stop (run state_dict s (firstn j epochs)) = false).
Proof.
  induction epochs as [|[v m] es IH]; intros s Hs.
  - exists 0%nat. split; [reflexivity | lia].
  - cbn [trainer_loop].
    destruct (__call__ state_dict s v m) as [s1 evs] eqn:E.
    destruct (early_stop s1) eqn:E1.
    + exists 1%nat. split.
      * cbn [firstn run_events]. rewrite run_cons. cbn [fst snd].
        now rewrite E.
      * intros [|j] Hj; [exact Hs | lia].
    + destruct (IH s1 E1) as (k & Hk & Hlt). exists (S k). split.
      * rewrite Hk. cbn [firstn run_events]. rewrite run_cons. cbn [fst snd].
        now rewrite E.
      * intros [|j] Hj; [exact Hs|].
        cbn [firstn]. rewrite run_cons. cbn [fst snd]. rewrite E.
        apply Hlt. lia.
Qed.

(** ** The claims *)

(** C1.  What the code does around a tie, with [delta = 0].  A call whose
    loss equals the best loss so far is not counted as no improvement: it
    takes the else branch, so the counter is reset to 0, [best_score] is
    assigned again and the checkpoint is written once.  A loss strictly
    below the best one is treated in the same way; only a loss strictly
    above it increments the counter and writes nothing. *)
Theorem C1_tie_counts_as_improvement s best val_loss model :
  best_score s = Some (- best)%Q -> (delta s == 0)%Q ->
  let s' := fst (__call__ state_dict s val_loss model) in
  let evs := snd (__call__ state_dict s val_loss model) in
  ((val_loss == best)%Q ->
     counter s' = 0 /\ best_score s' = Some (- val_loss)%Q /\
     val_loss_min s' = Finite val_loss /\ saves evs = 1%nat) /\
  ((val_loss < best)%Q ->
     counter s' = 0 /\ best_score s' = Some (- val_loss)%Q /\
     val_loss_min s' = Finite val_loss /\ saves evs = 1%nat) /\
  ((best < val_loss)%Q ->
     counter s' = counter s + 1 /\ best_score s' = best_score s /\
     val_loss_min s' = val_loss_min s /\ saves evs = 0%nat).
Proof.
  intros Hb Hd s' evs. subst s' evs.
  assert (I : (val_loss <= best)%Q ->
              let s' := fst (__call__ state_dict s val_loss model) in
              let evs := snd (__call__ state_dict s val_loss model) in
              counter s' = 0 /\ best_score s' = Some (- val_loss)%Q /\
              val_loss_min s' = Finite val_loss /\ saves evs = 1%nat).
  { intros Hv.
    assert (B : branch_of s val_loss = Improvement).
    { apply branch_Improvement. exists (- best)%Q. split; [exact Hb|]. lra. }
    cbv zeta. rewrite (call_Improvement s val_loss model B). cbn.
    repeat split. apply saves_checkpoint. }
  split; [|split]; intros Hv.
  - apply I. lra.
  - apply I. lra.
  - assert (B : branch_of s val_loss = NoImprovement).
    { apply branch_NoImprovement. exists (- best)%Q. split; [exact Hb|]. lra. }
    rewrite (call_NoImprovement s val_loss model B). cbn.
    destruct (counter s + 1 >=? patience s); cbn; repeat split.
Qed.

(** C5.  In every state reachable from the initial one: the counter is 0
    right after a call that records a new best score; [early_stop] goes
    from unset to set only in a call that does not improve and brings the
    counter to at least the patience (to exactly the patience when the
    patience is positive); and once set, [early_stop] stays set. *)
Theorem C5_state_invariant s val_loss model :
  reachable state_dict s ->
  let s' := fst (__call__ state_dict s val_loss model) in
  (branch_of s val_loss <> NoImprovement ->
     best_score s' = Some (- val_loss)%Q /\ counter s' = 0) /\
  (early_stop s = false -> early_stop s' = true ->
     branch_of s val_loss = NoImprovement /\
     counter s' = counter s + 1 /\ patience s' <= counter s' /\
     (1 <= patience s' -> counter s' = patience s')) /\
  (early_stop s = true -> early_stop s' = true).
Proof.
  intros R s'. subst s'.
  pose proof (reachable_fresh s R) as HF.
  pose proof (reachable_counter_lt s R) as HC.
  destruct_call s val_loss model; cbn.
  - apply branch_First in B. destruct (HF B) as (-> & E & _).
    repeat split; congruence.
  - destruct (counter s + 1 >=? patience s) eqn:E; cbn.
    + apply Z.geb_le in E.
      split; [congruence|]. split; [|reflexivity].
      intros Hs _. repeat split; try lia.
      intros Hp. specialize (HC Hp Hs). lia.
    + split; [congruence|]. split; [congruence|auto].
  - repeat split; congruence.
Qed.


(** C7, as amended.  Once [early_stop] is set, a further call keeps it set
    and keeps the configuration, but it is neither rejected nor a no-op: it
    updates the counter, [best_score], [val_loss_min] and the checkpoint
    exactly as a call in the active state does. *)
Theorem C7_stopped_stays_stopped s val_loss model :
  reachable state_dict s -> early_stop s = true ->
  let s' := fst (__call__ state_dict s val_loss model) in
  let evs := snd (__call__ state_dict s val_loss model) in
  early_stop s' = true /\
  patience s' = patience s /\ delta s' = delta s /\
  verbose s' = verbose s /\ path s' = path s /\
  match branch_of s val_loss with
  | NoImprovement =>
      counter s' = counter s + 1 /\ best_score s' = best_score s /\
      val_loss_min s' = val_loss_min s /\ saves evs = 0%nat
  | _ =>
      counter s' = 0 /\ best_score s' = Some (- val_loss)%Q /\
      val_loss_min s' = Finite val_loss /\ saves evs = 1%nat
  end.
Proof.
  intros R Hs s' evs. subst s' evs.
  destruct (call_config s val_loss model) as (-> & -> & -> & ->).
  rewrite call_saves.
  destruct_call s val_loss model; cbn.
  - apply branch_First in B.
    destruct (reachable_fresh s R B) as (_ & E & _). congruence.
  - destruct (counter s + 1 >=? patience s); cbn; repeat split; auto.
  - repeat split; auto.
Qed.

(** C8, as amended.  Construction with [patience <= 0] is not rejected:
    [__init__] checks nothing and stores the patience as given, next to the
    initial fields.  Such a controller sets [early_stop] at its first call
    that does not improve. *)
Theorem C8_init_accepts_any_patience p v d f :
  p <= 0 ->
  let s0 := __init__ p v d f in
  patience s0 = p /\ verbose s0 = v /\ delta s0 = d /\ path s0 = f /\
  counter s0 = 0 /\ best_score s0 = None /\ early_stop s0 = false /\
  val_loss_min s0 = Inf /\
  forall calls val_loss model,
    branch_of (run state_dict s0 calls) val_loss = NoImprovement ->
    early_stop (fst (__call__ state_dict (run state_dict s0 calls) val_loss model)) = true.
Proof.
  intros Hp s0. repeat split.
  intros calls val_loss model B.
  assert (R : reachable state_dict (run state_dict s0 calls))
    by apply run_reachable, reach_init.
  apply reachable_counter_nonneg in R.
  destruct (run_config s0 calls) as [P _]. cbn in P.
  rewrite (call_NoImprovement _ _ _ B). cbn.
  destruct (_ >=? _) eqn:E; [reflexivity|].
  rewrite Z.geb_leb in E. apply Z.leb_gt in E. lia.
Qed.

(** C9.  For a controller constructed with [patience >= 1], after any
    sequence of calls: if [early_stop] is unset then [counter < patience]. *)
Theorem C9_counter_below_patience p v d f calls :
  1 <= p ->
  let s := run state_dict (__init__ p v d f) calls in
  early_stop s = false -> counter s < patience s /\ patience s = p.
Proof.
  intros Hp s Hs. subst s.
  destruct (run_config (__init__ p v d f) calls) as [P _]. cbn in P.
  split; [|exact P].
  apply (reachable_counter_lt _ (run_reachable _ calls (reach_init _ p v d f)));
    [lia|exact Hs].
Qed.


(** C3, as amended.  For a fresh controller with [delta <= 0] and every
    strictly decreasing sequence of losses, [early_stop] is unset after
    every call and every call writes the checkpoint exactly once. *)
Theorem C3_decreasing_never_stops p v d f calls :
  (d <= 0)%Q -> strictly_decreasing (map fst calls) ->
  let s0 := __init__ p v d f in
  (forall k, early_stop (run state_dict s0 (firstn k calls)) = false) /\
  Forall (fun evs => saves evs = 1%nat) (run_events state_dict s0 calls) /\
  List.length (run_events state_dict s0 calls) = List.length calls.
Proof.
  intros Hd Hsort s0.
  destruct (decreasing_run calls s0) as [H1 H2]; auto; [discriminate|].
  repeat split; auto. apply run_events_length.
Qed.

(** C4, as amended.  For a fresh controller with [patience = p >= 1] and
    [delta >= 0], and every strictly increasing sequence of at least [p + 1]
    losses: after [k >= 1] calls the counter is [k - 1], and [early_stop] is
    set after [k] calls exactly when [k >= p + 1].  So it is set by call
    [p + 1], where the counter reaches [p], and by no earlier call. *)
Theorem C4_increasing_stops_at_patience p v d f calls :
  1 <= p -> (0 <= d)%Q -> strictly_increasing (map fst calls) ->
  p + 1 <= Z.of_nat (List.length calls) ->
  let s0 := __init__ p v d f in
  let after k := run state_dict s0 (firstn k calls) in
  (forall k, (1 <= k <= List.length calls)%nat ->
     counter (after k) = Z.of_nat k - 1) /\
  (forall k, (k <= List.length calls)%nat ->
     early_stop (after k) = (p <? Z.of_nat k)) /\
  counter (after (Z.to_nat (p + 1))) = p /\
  early_stop (after (Z.to_nat (p + 1))) = true /\
  early_stop (after (Z.to_nat p)) = false.
Proof.
  intros Hp Hd Hsort Hlen s0 after.
  assert (K : forall k, (k <= List.length calls)%nat ->
            (1 <= k)%nat ->
            counter (after k) = Z.of_nat k - 1 /\
            early_stop (after k) = (p <? Z.of_nat k)).
  { intros k Hk Hk1. subst after. cbn beta.
    destruct calls as [|[v0 m0] rest]; [cbn in Hk; lia|].
    destruct k as [|k]; [lia|]. cbn [firstn]. rewrite run_cons. cbn [fst snd].
    apply Sorted_StronglySorted in Hsort; [|exact Qlt_trans].
    cbn [map fst] in Hsort. apply StronglySorted_inv in Hsort as [_ Hall].
    rewrite Forall_map in Hall.
    rewrite (call_First s0 v0 m0 eq_refl). cbn [fst].
    set (s1 := set_val_loss_min _ _).
    destruct (worse_run (firstn k rest) s1 (- v0)%Q) as (_ & Hc & He).
    - reflexivity.
    - exact Hd.
    - apply Forall_firstn. rewrite Qopp_opp_eq. exact Hall.
    - cbn [List.length] in Hk.
      rewrite length_firstn, Nat.min_l in Hc, He by lia.
      subst s1 s0.
      cbn [early_stop counter patience set_val_loss_min
             set_best_score __init__ orb] in Hc, He.
      split; [rewrite Hc; lia|].
      rewrite He.
      destruct (firstn k rest) eqn:F.
      + assert (k = 0%nat).
        { apply (f_equal (@List.length _)) in F.
          rewrite length_firstn in F. cbn in F. lia. }
        subst k. symmetry. apply Z.ltb_ge. lia.
      + destruct (p <? Z.of_nat (S k)) eqn:E;
          [apply Z.leb_le; apply Z.ltb_lt in E | apply Z.leb_gt; apply Z.ltb_ge in E];
          lia. }
  split; [intros k Hk; apply K; lia|].
  split.
  { intros [|k] Hk; [|apply K; lia].
    subst after. cbn. symmetry. apply Z.ltb_ge. lia. }
  destruct (K (Z.to_nat (p + 1))) as [Kc Ke]; try lia.
  destruct (K (Z.to_nat p)) as [_ Ke']; try lia.
  rewrite Kc, Ke, Ke'. repeat split; try lia.
  - apply Z.ltb_lt. lia.
  - apply Z.ltb_ge. lia.
Qed.

End Properties.

(** * The claims at concrete inputs *)

(** The input on which the code departs from C1: with the default
    [delta = 0], after a first loss of 0.3 a second loss of 0.3 resets the
    counter and writes the checkpoint instead of incrementing the counter. *)
Lemma C1_tie_failing_input :
  let s := fst (__call__ weights_state_dict
                  (__init__ default_patience default_verbose default_delta default_path)
                  0.3%Q [1]) in
  let s' := fst (__call__ weights_state_dict s 0.3%Q [2]) in
  let evs := snd (__call__ weights_state_dict s 0.3%Q [2]) in
  best_score s = Some (- 0.3)%Q /\ delta s = 0%Q /\
  ~ (counter s' = counter s + 1 /\ best_score s' = best_score s /\ saves evs = 0%nat) /\
  counter s' = 0 /\ saves evs = 1%nat.
Proof.
  cbv zeta. repeat split; try reflexivity.
  intros (H & _). vm_compute in H. discriminate H.
Qed.

Lemma C1_tie_witness :
  let s := fst (__call__ weights_state_dict (__init__ 7 false 0 "checkpoint.pt") 0.3%Q [1]) in
  (best_score s = Some (- 0.3)%Q /\ (delta s == 0)%Q) /\
  ((0.3 == 0.3)%Q ->
     counter (fst (__call__ weights_state_dict s 0.3%Q [2])) = 0 /\
     best_score (fst (__call__ weights_state_dict s 0.3%Q [2])) = Some (- 0.3)%Q /\
     val_loss_min (fst (__call__ weights_state_dict s 0.3%Q [2])) = Finite 0.3%Q /\
     saves (snd (__call__ weights_state_dict s 0.3%Q [2])) = 1%nat).
Proof.
  cbv zeta.
  assert (H0 : best_score (fst (__call__ weights_state_dict
                                  (__init__ 7 false 0 "checkpoint.pt") 0.3%Q [1]))
               = Some (- 0.3)%Q) by reflexivity.
  assert (H1 : Qeq (delta (fst (__call__ weights_state_dict
                                 (__init__ 7 false 0 "checkpoint.pt") 0.3%Q [1])))
                    0%Q) by reflexivity.
  split; [split; assumption|].
  exact (proj1 (C1_tie_counts_as_improvement weights_state_dict
                  (fst (__call__ weights_state_dict
                          (__init__ 7 false 0 "checkpoint.pt") 0.3%Q [1]))
                  0.3%Q 0.3%Q [2] H0 H1)).
Defined.

(** The input on which the code departs from C2: [early_stop] is not set
    by the 4th call. *)
Lemma C2_scenario_failing_input :
  let calls := [(0.5%Q, [1]); (0.4%Q, [2]); (0.3%Q, [3]); (0.3%Q, [4]); (0.3%Q, [5])] in
  let s0 := __init__ 2 false 0 "checkpoint.pt" in
  early_stop (run weights_state_dict s0 (firstn 4 calls)) <> true.
Proof. cbv zeta. vm_compute. discriminate. Qed.

(** C3 fails as stated: with [patience = 1] and [delta = 1] the strictly
    decreasing losses 5, 4.5 set [early_stop] at the second call, which
    writes no checkpoint. *)
Lemma C3_decreasing_counterexample :
  let calls := [(5%Q, [1]); (4.5%Q, [2])] in
  let s0 := __init__ 1 false 1 "checkpoint.pt" in
  strictly_decreasing (map fst calls) /\
  early_stop (run weights_state_dict s0 calls) = true /\
  map saves (run_events weights_state_dict s0 calls) = [1; 0]%nat.
Proof.
  cbv zeta. split; [|split; reflexivity].
  unfold strictly_decreasing. repeat constructor.
Qed.

Lemma C3_decreasing_witness :
  let calls := [(3%Q, [1]); (2%Q, [2]); (1%Q, [3])] in
  let s0 := __init__ 1 false 0 "checkpoint.pt" in
  ((0 <= 0)%Q /\ strictly_decreasing (map fst calls)) /\
  (forall k, early_stop (run weights_state_dict s0 (firstn k calls)) = false) /\
  Forall (fun evs => saves evs = 1%nat) (run_events weights_state_dict s0 calls) /\
  List.length (run_events weights_state_dict s0 calls) = List.length calls.
Proof.
  cbv zeta.
  assert (H0 : (0 <= 0)%Q) by (unfold Qle; simpl; lia).
  assert (H1 : strictly_decreasing (map fst [(3%Q, [1]); (2%Q, [2]); (1%Q, [3])]))
    by (unfold strictly_decreasing; repeat constructor).
  split; [split; assumption|].
  exact (C3_decreasing_never_stops weights_state_dict 1 false 0 "checkpoint.pt"
           [(3%Q, [1]); (2%Q, [2]); (1%Q, [3])] H0 H1).
Defined.

(** C4 fails as stated: with [patience = 1] and [delta = -1] the strictly
    increasing losses 1, 1.5 do not set [early_stop] at the second call. *)
Lemma C4_increasing_counterexample :
  let calls := [(1%Q, [1]); (1.5%Q, [2])] in
  let s0 := __init__ 1 false (-1) "checkpoint.pt" in
  strictly_increasing (map fst calls) /\
  (1 + 1 <= Z.of_nat (List.length calls)) /\
  early_stop (run weights_state_dict s0 (firstn 2 calls)) = false.
Proof.
  cbv zeta. split; [|split; [cbn; lia | reflexivity]].
  unfold strictly_increasing. repeat constructor.
Qed.

Lemma C4_increasing_witness :
  let calls := [(1%Q, [1]); (2%Q, [2]); (3%Q, [3]); (4%Q, [4])] in
  let s0 := __init__ 2 false 0 "checkpoint.pt" in
  (1 <= 2 /\ (0 <= 0)%Q /\ strictly_increasing (map fst calls) /\
   2 + 1 <= Z.of_nat (List.length calls)) /\
  counter (run weights_state_dict s0 (firstn 3 calls)) = 2 /\
  early_stop (run weights_state_dict s0 (firstn 3 calls)) = true /\
  early_stop (run weights_state_dict s0 (firstn 2 calls)) = false.
Proof.
  cbv zeta.
  assert (H0 : 1 <= 2) by lia.
  assert (H1 : (0 <= 0)%Q) by (unfold Qle; simpl; lia).
  assert (H2 : strictly_increasing
                 (map fst [(1%Q, [1]); (2%Q, [2]); (3%Q, [3]); (4%Q, [4])]))
    by (unfold strictly_increasing; repeat constructor).
  assert (H3 : 2 + 1 <= Z.of_nat
                 (List.length [(1%Q, [1]); (2%Q, [2]); (3%Q, [3]); (4%Q, [4])]))
    by (simpl; lia).
  split; [repeat split; assumption|].
  exact (proj2 (proj2 (C4_increasing_stops_at_patience weights_state_dict
           2 false 0 "checkpoint.pt" _ H0 H1 H2 H3))).
Defined.

Lemma C5_state_invariant_witness :
  let s := fst (__call__ weights_state_dict (__init__ 1 false 0 "checkpoint.pt") 1%Q [1]) in
  let s' := fst (__call__ weights_state_dict s 2%Q [2]) in
  reachable weights_state_dict s /\
  (early_stop s = false -> early_stop s' = true ->
     branch_of s 2%Q = NoImprovement /\
     counter s' = counter s + 1 /\ patience s' <= counter s' /\
     (1 <= patience s' -> counter s' = patience s')) /\
  (early_stop s = true -> early_stop s' = true).
Proof.
  cbv zeta.
  assert (R : reachable weights_state_dict
                (fst (__call__ weights_state_dict
                        (__init__ 1 false 0 "checkpoint.pt") 1%Q [1])))
    by (apply reach_call, reach_init).
  split; [exact R|].
  exact (proj2 (C5_state_invariant weights_state_dict _ 2%Q [2] R)).
Defined.


(** C7 fails as stated: in the same stopped state a further call with loss
    3 increments the counter, and one with loss 0.5 replaces [best_score],
    [val_loss_min] and the checkpoint. *)
Lemma C7_stopped_counterexample :
  let s := run weights_state_dict (__init__ 1 false 0 "checkpoint.pt")
             [(1%Q, [1]); (2%Q, [2])] in
  early_stop s = true /\
  fst (__call__ weights_state_dict s 3%Q [3]) <> s /\
  counter (fst (__call__ weights_state_dict s 3%Q [3])) = 2 /\ counter s = 1 /\
  fst (__call__ weights_state_dict s 0.5%Q [3]) <> s /\
  val_loss_min (fst (__call__ weights_state_dict s 0.5%Q [3])) = Finite 0.5%Q /\
  val_loss_min s = Finite 1%Q.
Proof.
  cbv zeta. repeat split; try reflexivity.
  - intros H. apply (f_equal counter) in H. vm_compute in H. discriminate H.
  - intros H. apply (f_equal counter) in H. vm_compute in H. discriminate H.
Qed.

Lemma C7_stopped_witness :
  let s := run weights_state_dict (__init__ 1 false 0 "checkpoint.pt")
             [(1%Q, [1]); (2%Q, [2])] in
  let s' := fst (__call__ weights_state_dict s 3%Q [3]) in
  (reachable weights_state_dict s /\ early_stop s = true) /\
  early_stop s' = true /\ patience s' = patience s.
Proof.
  cbv zeta.
  assert (R : reachable weights_state_dict
                (run weights_state_dict (__init__ 1 false 0 "checkpoint.pt")
                   [(1%Q, [1]); (2%Q, [2])]))
    by (apply (reach_call weights_state_dict _ 2%Q [2]),
              (reach_call weights_state_dict _ 1%Q [1]), reach_init).
  split; [split; [exact R | reflexivity]|].
  pose proof (C7_stopped_stays_stopped weights_state_dict _ 3%Q [3] R eq_refl) as H.
  cbv zeta in H. split; [exact (proj1 H) | exact (proj1 (proj2 H))].
Defined.

(** C8 fails as stated: a controller with patience 0, or -3, is constructed. *)
Lemma C8_init_counterexample :
  patience (__init__ 0 default_verbose default_delta default_path) = 0 /\
  patience (__init__ (-3) default_verbose default_delta default_path) = -3 /\
  ~ (forall p v d f, 0 < patience (__init__ p v d f)).
Proof.
  repeat split. intros H.
  specialize (H 0 default_verbose default_delta default_path). cbn in H. lia.
Qed.

Lemma C8_init_witness :
  let s0 := __init__ 0 false 0 "checkpoint.pt" in
  0 <= 0 /\ patience s0 = 0 /\
  (branch_of (run weights_state_dict s0 [(1%Q, [1])]) 2%Q = NoImprovement ->
   early_stop (fst (__call__ weights_state_dict
                      (run weights_state_dict s0 [(1%Q, [1])]) 2%Q [2])) = true).
Proof.
  cbv zeta.
  assert (H0 : 0 <= 0) by lia.
  pose proof (C8_init_accepts_any_patience weights_state_dict
                0 false 0%Q "checkpoint.pt" H0) as H.
  cbv zeta in H. split; [exact H0|]. split; [exact (proj1 H)|].
  apply H.
Defined.

Lemma C9_counter_witness :
  let s := run weights_state_dict (__init__ 3 false 0 "checkpoint.pt")
             [(1%Q, [1]); (2%Q, [2]); (3%Q, [3])] in
  (1 <= 3 /\ early_stop s = false) /\ counter s < patience s /\ patience s = 3.
Proof.
  cbv zeta.
  assert (H0 : 1 <= 3) by lia.
  split; [split; [exact H0 | reflexivity]|].
  exact (C9_counter_below_patience weights_state_dict 3 false 0%Q "checkpoint.pt"
           [(1%Q, [1]); (2%Q, [2]); (3%Q, [3])] H0 eq_refl).
Defined.

(** * Further properties of the controller *)

Section ControllerMore.

Context {Model StateDict : Type} (state_dict : Model -> StateDict).

(** The effect of one call on the counter and on the flag, by branch. *)
Lemma call_counter s v m :
  counter (fst (__call__ state_dict s v m)) =
  match branch_of s v with
  | First => counter s
  | NoImprovement => counter s + 1
  | Improvement => 0
  end.
Proof.
  destruct (branch_of s v) eqn:B.
  - now rewrite (call_First state_dict s v m B).
  - rewrite (call_NoImprovement state_dict s v m B). cbn.
    now destruct (counter s + 1 >=? patience s).
  - now rewrite (call_Improvement state_dict s v m B).
Qed.

Lemma call_early_stop s v m :
  early_stop (fst (__call__ state_dict s v m)) =
  early_stop s ||
  match branch_of s v with
  | NoImprovement => patience s <=? counter s + 1
  | _ => false
  end.
Proof.
  destruct (branch_of s v) eqn:B.
  - rewrite (call_First state_dict s v m B). cbn. now rewrite orb_false_r.
  - rewrite (call_NoImprovement state_dict s v m B). cbn.
    rewrite Z.geb_leb.
    destruct (patience s <=? counter s + 1); cbn;
      [now rewrite orb_true_r | now rewrite orb_false_r].
  - rewrite (call_Improvement state_dict s v m B). cbn. now rewrite orb_false_r.
Qed.

Lemma run_app s l1 l2 :
  run state_dict s (l1 ++ l2) = run state_dict (run state_dict s l1) l2.
Proof. unfold run. apply fold_left_app. Qed.

Lemma run_events_app s l1 l2 :
  run_events state_dict s (l1 ++ l2) =
  run_events state_dict s l1 ++ run_events state_dict (run state_dict s l1) l2.
Proof.
  revert s. induction l1 as [|[v m] l1 IH]; intros s; [reflexivity|].
  cbn [app run_events]. rewrite run_cons. cbn [fst snd].
  destruct (__call__ state_dict s v m) as [s' evs]. cbn [fst].
  now rewrite IH.
Qed.

Lemma run_branches_app s l1 l2 :
  run_branches state_dict s (l1 ++ l2) =
  run_branches state_dict s l1 ++
  run_branches state_dict (run state_dict s l1) l2.
Proof.
  revert s. induction l1 as [|[v m] l1 IH]; intros s; [reflexivity|].
  cbn [app run_branches]. rewrite run_cons. cbn [fst snd]. now rewrite IH.
Qed.

Lemma run_early_stop_keeps s l :
  early_stop s = true -> early_stop (run state_dict s l) = true.
Proof.
  revert s. induction l as [|[v m] l IH]; intros s H; [exact H|].
  rewrite run_cons. apply IH. cbn [fst snd]. rewrite call_early_stop, H.
  reflexivity.
Qed.

Lemma firstn_snoc_le {A} k (l : list A) c :
  (k <= List.length l)%nat -> firstn k (l ++ [c]) = firstn k l.
Proof.
  intros H. rewrite firstn_app.
  replace (k - List.length l)%nat with 0%nat by lia.
  cbn. apply app_nil_r.
Qed.

Lemma firstn_snoc_all {A} (l : list A) c :
  firstn (S (List.length l)) (l ++ [c]) = l ++ [c].
Proof.
  rewrite <- (firstn_all (l ++ [c])) at 2.
  f_equal. rewrite length_app. cbn. lia.
Qed.

(** X4.  After any sequence of calls on a fresh controller, the counter is
    the number of calls without improvement since the last call that
    improved (or since the first call). *)
Theorem counter_is_streak p v d f calls :
  counter (run state_dict (__init__ p v d f) calls) =
  streak (run_branches state_dict (__init__ p v d f) calls).
Proof.
  induction calls as [|[w m] calls IH] using rev_ind; [reflexivity|].
  rewrite run_snoc, run_branches_app. unfold streak in *.
  rewrite fold_left_app, <- IH. cbn [fst snd run_branches fold_left].
  rewrite call_counter.
  destruct (branch_of _ w) eqn:B; try reflexivity.
  apply branch_First in B.
  apply (reachable_fresh state_dict); [|exact B].
  apply run_reachable, reach_init.
Qed.

(** X5.  With a positive patience, [early_stop] is set after a sequence of
    calls exactly when the counter had reached the patience after one of
    them. *)
Theorem early_stop_iff_counter_reached p v d f calls :
  1 <= p ->
  let s0 := __init__ p v d f in
  early_stop (run state_dict s0 calls) = true <->
  exists k, (k <= List.length calls)%nat /\
            p <= counter (run state_dict s0 (firstn k calls)).
Proof.
  intros Hp s0.
  induction calls as [|[w m] calls IH] using rev_ind.
  - cbn. split; [discriminate|]. intros (k & _ & H).
    destruct k; cbn in H; lia.
  - assert (R : reachable state_dict (run state_dict s0 calls))
      by apply run_reachable, reach_init.
    assert (P : patience (run state_dict s0 calls) = p)
      by apply (run_config state_dict s0 calls).
    rewrite run_snoc. cbn [fst snd]. rewrite call_early_stop, P. split.
    + intros H. apply orb_true_iff in H as [H | H].
      * apply IH in H as (k & Hk & Hc). exists k.
        rewrite length_app. cbn [List.length]. split; [lia|].
        now rewrite firstn_snoc_le.
      * exists (S (List.length calls)). rewrite length_app. cbn [List.length].
        split; [lia|]. rewrite firstn_snoc_all, run_snoc. cbn [fst snd].
        rewrite call_counter.
        destruct (branch_of _ w); try discriminate.
        now apply Z.leb_le.
    + intros (k & Hk & Hc). rewrite length_app in Hk. cbn [List.length] in Hk.
      destruct (Nat.eq_dec k (S (List.length calls))) as [-> | Hne].
      * rewrite firstn_snoc_all, run_snoc in Hc. cbn [fst snd] in Hc.
        rewrite call_counter in Hc.
        destruct (early_stop (run state_dict s0 calls)) eqn:E; [reflexivity|].
        pose proof (reachable_counter_lt state_dict _ R) as HC.
        rewrite P in HC. specialize (HC Hp E).
        destruct (branch_of _ w); cbn; lia.
      * rewrite firstn_snoc_le in Hc by lia.
        apply orb_true_iff. left. apply IH. exists k. split; [lia|exact Hc].
Qed.

Lemma call_val_loss_min s v m :
  val_loss_min (fst (__call__ state_dict s v m)) =
  match branch_of s v with
  | NoImprovement => val_loss_min s
  | _ => Finite v
  end.
Proof.
  destruct (branch_of s v) eqn:B.
  - now rewrite (call_First state_dict s v m B).
  - rewrite (call_NoImprovement state_dict s v m B). cbn.
    now destruct (counter s + 1 >=? patience s).
  - now rewrite (call_Improvement state_dict s v m B).
Qed.

Lemma call_best_score s v m :
  best_score (fst (__call__ state_dict s v m)) =
  match branch_of s v with
  | NoImprovement => best_score s
  | _ => Some (- v)%Q
  end.
Proof.
  destruct (branch_of s v) eqn:B.
  - now rewrite (call_First state_dict s v m B).
  - rewrite (call_NoImprovement state_dict s v m B). cbn.
    now destruct (counter s + 1 >=? patience s).
  - now rewrite (call_Improvement state_dict s v m B).
Qed.

Lemma run_path s l : path (run state_dict s l) = path s.
Proof.
  revert s. induction l as [|[v m] l IH]; intros s; [reflexivity|].
  rewrite run_cons, IH. apply (call_config state_dict s v m).
Qed.

Lemma last_checkpoint_app (a b : list (event StateDict)) :
  last_checkpoint (a ++ b) =
  match last_checkpoint b with
  | Some x => Some x
  | None => last_checkpoint a
  end.
Proof.
  unfold last_checkpoint. rewrite fold_left_app.
  generalize (fold_left
                (fun acc e => match e with
                              | TorchSave sd f => Some (sd, f)
                              | TraceFunc _ => acc
                              end) a None).
  induction b as [|e b IH]; intros acc; cbn [fold_left]; [reflexivity|].
  rewrite IH. symmetry. rewrite IH.
  destruct (fold_left _ b None); [reflexivity|].
  destruct e; reflexivity.
Qed.

Lemma call_last_checkpoint s v m :
  last_checkpoint (snd (__call__ state_dict s v m)) =
  match branch_of s v with
  | NoImprovement => None
  | _ => Some (state_dict m, path s)
  end.
Proof.
  destruct (branch_of s v) eqn:B.
  - rewrite (call_First state_dict s v m B). cbn [snd].
    rewrite last_checkpoint_app. reflexivity.
  - now rewrite (call_NoImprovement state_dict s v m B).
  - rewrite (call_Improvement state_dict s v m B). cbn [snd].
    rewrite last_checkpoint_app. reflexivity.
Qed.

(** X3.  After at least one call on a fresh controller, the checkpoint file
    is at the configured path and holds the state dict of the model of a
    call whose loss is [val_loss_min]. *)
Theorem checkpoint_is_best_model p v d f c calls :
  let s0 := __init__ p v d f in
  exists val_loss model,
    In (val_loss, model) (c :: calls) /\
    val_loss_min (run state_dict s0 (c :: calls)) = Finite val_loss /\
    last_checkpoint (List.concat (run_events state_dict s0 (c :: calls))) =
      Some (state_dict model, f).
Proof.
  intros s0.
  assert (N : c :: calls <> []) by discriminate.
  revert N. generalize (c :: calls). clear c calls.
  induction l as [|[w m] l IH] using rev_ind; [congruence|]. intros _.
  rewrite run_snoc, run_events_app, concat_app, last_checkpoint_app.
  cbn [fst snd run_events].
  pose proof (call_last_checkpoint (run state_dict s0 l) w m) as HL.
  pose proof (call_val_loss_min (run state_dict s0 l) w m) as HV.
  destruct (__call__ state_dict (run state_dict s0 l) w m) as [s' evs].
  cbn [fst snd List.concat] in *. rewrite app_nil_r, HL, HV, run_path.
  destruct (branch_of (run state_dict s0 l) w) eqn:B.
  - exists w, m. split; [apply in_app_iff; right; now left|]. now split.
  - destruct l as [|c l].
    + apply branch_NoImprovement in B as (b & Hb & _). discriminate Hb.
    + destruct IH as (w' & m' & Hin & Hv & Hc); [discriminate|].
      exists w', m'. split; [apply in_app_iff; now left|]. now split.
  - exists w, m. split; [apply in_app_iff; right; now left|]. now split.
Qed.

(** *** The trainer loop, again *)

Lemma trainer_loop_split epochs : forall s,
  early_stop s = false ->
  exists k,
    (k <= List.length epochs)%nat /\
    trainer_loop state_dict s epochs =
      (run state_dict s (firstn k epochs),
       run_events state_dict s (firstn k epochs)) /\
    (forall j, (j < k)%nat ->
       early_stop (run state_dict s (firstn j epochs)) = false) /\
    (early_stop (run state_dict s (firstn k epochs)) = true \/
     k = List.length epochs).
Proof.
  induction epochs as [|[w m] es IH]; intros s Hs.
  - exists 0%nat. cbn. repeat split; auto. lia.
  - cbn [trainer_loop].
    destruct (__call__ state_dict s w m) as [s1 evs] eqn:E.
    destruct (early_stop s1) eqn:E1.
    + exists 1%nat. cbn [firstn run_events List.length]. rewrite run_cons.
      cbn [fst snd]. rewrite E. cbn [fst]. repeat split; auto; try lia.
      intros [|j] Hj; [exact Hs | lia].
    + destruct (IH s1 E1) as (k & Hk & Heq & Hlt & Hend). exists (S k).
      cbn [firstn run_events List.length]. rewrite run_cons.
      cbn [fst snd]. rewrite E, Heq. cbn [fst]. repeat split; auto; try lia.
      * intros [|j] Hj; [exact Hs|].
        cbn [firstn]. rewrite run_cons. cbn [fst snd]. rewrite E.
        apply Hlt. lia.
      * destruct Hend as [H | ->]; auto.
Qed.

(** X1.  Started on a controller whose flag is unset, the trainer loop makes
    the calls of the first [k] epochs for some [k]: the flag is unset before
    each of these calls, and the loop ends either because call [k] set the
    flag or because the epochs are used up. *)
Theorem trainer_loop_stops_at_first_signal s epochs :
  early_stop s = false ->
  exists k,
    (k <= List.length epochs)%nat /\
    trainer_loop state_dict s epochs =
      (run state_dict s (firstn k epochs),
       run_events state_dict s (firstn k epochs)) /\
    (forall j, (j < k)%nat ->
       early_stop (run state_dict s (firstn j epochs)) = false) /\
    (early_stop (run state_dict s (firstn k epochs)) = true \/
     k = List.length epochs).
Proof. apply trainer_loop_split. Qed.

Lemma counter_lt_calls p v d f l :
  l <> [] ->
  counter (run state_dict (__init__ p v d f) l) + 1 <= len l.
Proof.
  induction l as [|[w m] l IH] using rev_ind; [congruence|]. intros _.
  set (s0 := __init__ p v d f) in *.
  pose proof (reachable_counter_nonneg state_dict _
                (run_reachable state_dict s0 l (reach_init state_dict p v d f)))
    as H0.
  rewrite run_snoc. cbn [fst snd]. rewrite call_counter.
  unfold len in *. rewrite length_app, Nat2Z.inj_add. cbn [List.length].
  destruct l as [|c l].
  - cbn. lia.
  - specialize (IH ltac:(discriminate)).
    destruct (branch_of _ w); lia.
Qed.

Lemma stop_needs_calls p v d f l :
  1 <= p ->
  early_stop (run state_dict (__init__ p v d f) l) = true ->
  p + 1 <= len l.
Proof.
  intros Hp.
  induction l as [|[w m] l IH] using rev_ind; [discriminate|].
  set (s0 := __init__ p v d f) in *.
  rewrite run_snoc. cbn [fst snd]. rewrite call_early_stop.
  unfold len in *. rewrite length_app, Nat2Z.inj_add. cbn [List.length].
  intros H. apply orb_true_iff in H as [H | H]; [specialize (IH H); lia|].
  destruct (branch_of _ w) eqn:B; try discriminate.
  apply Z.leb_le in H.
  rewrite (proj1 (run_config state_dict s0 l)) in H. cbn in H.
  destruct l as [|c l].
  - apply branch_NoImprovement in B as (b & Hb & _). discriminate Hb.
  - pose proof (counter_lt_calls p v d f (c :: l) ltac:(discriminate)) as HC.
    unfold len in HC. fold s0 in HC. lia.
Qed.

Lemma trainer_loop_counter epochs : forall s,
  reachable state_dict s -> 1 <= patience s -> early_stop s = false ->
  let es := fst (trainer_loop state_dict s epochs) in
  counter es <= patience s /\ (early_stop es = true -> counter es = patience s).
Proof.
  induction epochs as [|[w m] es IH]; intros s R Hp Hs.
  - cbn. pose proof (reachable_counter_lt state_dict s R Hp Hs).
    split; [lia | congruence].
  - cbn [trainer_loop].
    pose proof (call_counter s w m) as HC.
    pose proof (call_early_stop s w m) as HE.
    pose proof (proj1 (call_config state_dict s w m)) as HP.
    pose proof (reach_call state_dict s w m R) as R1.
    destruct (__call__ state_dict s w m) as [s1 evs]. cbn [fst snd] in *.
    pose proof (reachable_counter_lt state_dict s R Hp Hs) as Hlt.
    pose proof (reachable_counter_nonneg state_dict s R) as H0.
    destruct (early_stop s1) eqn:E1.
    + cbn [fst]. rewrite Hs in HE. cbn in HE.
      destruct (branch_of s w); try discriminate.
      symmetry in HE. apply Z.leb_le in HE. split; [lia|]. intros _. lia.
    + destruct (trainer_loop state_dict s1 es) as [es' evss] eqn:T.
      cbn [fst]. specialize (IH s1 R1). rewrite T, HP in IH. cbn [fst] in IH.
      apply IH; [exact Hp | exact E1].
Qed.

(** X6.  With a fresh controller of patience [p >= 1], the trainer loop runs
    at least [p + 1] epochs when that many are available; the counter of
    the controller never exceeds [p], and it is exactly [p] when the loop
    ends with the flag set. *)
Theorem trainer_loop_patience p v d f epochs :
  1 <= p ->
  let r := trainer_loop state_dict (__init__ p v d f) epochs in
  Z.min (len epochs) (p + 1) <= len (snd r) /\
  counter (fst r) <= p /\
  (early_stop (fst r) = true -> counter (fst r) = p).
Proof.
  intros Hp r. subst r. set (s0 := __init__ p v d f).
  split.
  - destruct (trainer_loop_split epochs s0 eq_refl)
      as (k & Hk & -> & _ & Hend).
    cbn [snd]. unfold len.
    rewrite run_events_length, length_firstn, Nat.min_l by exact Hk.
    destruct Hend as [H | ->]; [|lia].
    apply (stop_needs_calls p v d f _ Hp) in H.
    unfold len in H. rewrite length_firstn, Nat.min_l in H by exact Hk. lia.
  - apply (trainer_loop_counter epochs s0);
      [apply reach_init | exact Hp | reflexivity].
Qed.

End ControllerMore.

(** * Properties of [binary_accuracy] *)

Lemma where_numel_bounds mask : 0 <= where_numel mask <= len mask.
Proof.
  unfold where_numel, len.
  induction mask as [|[] mask IH]; cbn [filter List.length]; lia.
Qed.

Lemma where_numel_app a b : where_numel (a ++ b) = where_numel a + where_numel b.
Proof.
  unfold where_numel, len. rewrite filter_app, length_app. lia.
Qed.

Lemma where_numel_all {A} (f : A -> bool) l :
  where_numel (map f l) = len l <-> Forall (fun x => f x = true) l.
Proof.
  induction l as [|x l IH]; [split; [constructor | reflexivity]|].
  pose proof (where_numel_bounds (map f l)) as HB.
  unfold where_numel, len in *. rewrite length_map in HB.
  cbn [map filter List.length].
  destruct (f x) eqn:E; cbn [List.length]; split.
  - intros H. constructor; [exact E|]. apply IH. lia.
  - intros H. apply Forall_cons_iff in H as [_ H]. apply IH in H. lia.
  - intros H. lia.
  - intros H. apply Forall_cons_iff in H as [H _]. congruence.
Qed.

Lemma combine_app_same {A B} (l1 l2 : list A) (r1 r2 : list B) :
  List.length l1 = List.length r1 ->
  combine (l1 ++ l2) (r1 ++ r2) = combine l1 r1 ++ combine l2 r2.
Proof.
  revert r1. induction l1 as [|x l1 IH]; intros [|y r1] H;
    try discriminate; [reflexivity|].
  cbn. f_equal. apply IH. now injection H.
Qed.

Lemma hits_bounds pred gt : 0 <= hits pred gt <= numel pred.
Proof.
  unfold hits, numel.
  pose proof (where_numel_bounds
                (map (fun pg => is_close (fst pg) (snd pg)) (combine pred gt))) as H.
  unfold len in *. rewrite length_map, length_combine in H. lia.
Qed.

Lemma numel_pos (t : tensor) : t <> [] -> 0 < numel t.
Proof. destruct t; [congruence|]. intros _. unfold numel, len. cbn. lia. Qed.

Lemma binary_accuracy_ok pred gt :
  pred <> [] ->
  binary_accuracy pred gt =
  Ok (inject_Z (hits pred gt) / inject_Z (numel pred))%Q.
Proof.
  intros H. apply numel_pos in H. unfold binary_accuracy, true_div.
  fold (hits pred gt). destruct (numel pred =? 0) eqn:E; [|reflexivity].
  apply Z.eqb_eq in E. lia.
Qed.

Lemma binary_accuracy_empty gt : binary_accuracy [] gt = Raise ZeroDivisionError.
Proof. reflexivity. Qed.

Lemma is_close_true p g : is_close p g = true <-> (Qabs (p - g) < 0.1)%Q.
Proof. apply Qltb_true. Qed.

(** X7.  For a prediction and a ground truth of the same shape,
    [binary_accuracy] raises ZeroDivisionError when they have no entries,
    and otherwise returns a value between 0 and 1. *)
Theorem binary_accuracy_range pred ground_truth :
  List.length pred = List.length ground_truth ->
  match pred with
  | [] => binary_accuracy pred ground_truth = Raise ZeroDivisionError
  | _ => exists a, binary_accuracy pred ground_truth = Ok a /\ (0 <= a <= 1)%Q
  end.
Proof.
  intros _.
  destruct pred as [|p pred]; [reflexivity|].
  assert (N : p :: pred <> []) by discriminate.
  rewrite (binary_accuracy_ok _ ground_truth N).
  eexists. split; [reflexivity|].
  pose proof (hits_bounds (p :: pred) ground_truth) as [H0 H1].
  apply numel_pos in N.
  assert (Hn : (0 < inject_Z (numel (p :: pred)))%Q)
    by (rewrite <- (Zlt_Qlt 0); exact N).
  split.
  - apply Qle_shift_div_l; [exact Hn|]. rewrite Qmult_0_l.
    rewrite <- (Zle_Qle 0). exact H0.
  - apply Qle_shift_div_r; [exact Hn|]. rewrite Qmult_1_l.
    rewrite <- Zle_Qle. exact H1.
Qed.

Lemma hits_all_close pred gt :
  List.length pred = List.length gt ->
  (forall p g, In (p, g) (combine pred gt) -> (Qabs (p - g) < 0.1)%Q) ->
  hits pred gt = numel pred.
Proof.
  intros Hlen H.
  assert (E : numel pred = len (combine pred gt)).
  { unfold numel, len. rewrite length_combine. lia. }
  unfold hits. rewrite E. apply where_numel_all, Forall_forall.
  intros [p g] Hin. apply is_close_true. now apply H.
Qed.

Lemma accuracy_all_close pred gt :
  pred <> [] -> List.length pred = List.length gt ->
  (forall p g, In (p, g) (combine pred gt) -> (Qabs (p - g) < 0.1)%Q) ->
  (inject_Z (hits pred gt) / inject_Z (numel pred) == 1)%Q.
Proof.
  intros N Hlen H. rewrite (hits_all_close _ _ Hlen H). field.
  apply numel_pos in N. change 0%Q with (inject_Z 0).
  rewrite inject_Z_injective. lia.
Qed.

(** X8.  For a non-empty prediction and a ground truth of the same shape,
    the accuracy is 1 exactly when every entry of the prediction is within
    0.1 of its target. *)
Theorem binary_accuracy_one_iff pred ground_truth :
  List.length pred = List.length ground_truth -> pred <> [] ->
  exists a,
    binary_accuracy pred ground_truth = Ok a /\
    ((a == 1)%Q <->
     forall p g, In (p, g) (combine pred ground_truth) ->
                 (Qabs (p - g) < 0.1)%Q).
Proof.
  intros Hlen N. rewrite (binary_accuracy_ok _ ground_truth N).
  eexists. split; [reflexivity|].
  pose proof (numel_pos pred N) as Hn.
  assert (Hq : ~ (inject_Z (numel pred) == 0)%Q).
  { change 0%Q with (inject_Z 0). rewrite inject_Z_injective. lia. }
  assert (E : numel pred = len (combine pred ground_truth)).
  { unfold numel, len. rewrite length_combine. lia. }
  split.
  - intros H p g Hin.
    assert (H' : (inject_Z (hits pred ground_truth) == inject_Z (numel pred))%Q).
    { rewrite <- (Qmult_div_r (inject_Z (hits pred ground_truth))
                    (inject_Z (numel pred)) Hq).
      rewrite H. apply Qmult_1_r. }
    apply (proj1 (inject_Z_injective _ _)) in H'.
    unfold hits in H'. rewrite E in H'.
    apply where_numel_all in H'. rewrite Forall_forall in H'.
    apply is_close_true. exact (H' (p, g) Hin).
  - intros H. rewrite (hits_all_close _ _ Hlen H). field. exact Hq.
Qed.

(** X9.  For two pairs of tensors, each of a prediction and a ground truth
    of the same shape, the accuracy over the two pairs stacked is the
    average of the two accuracies weighted by the numbers of entries. *)
Theorem binary_accuracy_app pred1 gt1 pred2 gt2 a1 a2 :
  List.length pred1 = List.length gt1 ->
  List.length pred2 = List.length gt2 ->
  binary_accuracy pred1 gt1 = Ok a1 ->
  binary_accuracy pred2 gt2 = Ok a2 ->
  exists a,
    binary_accuracy (pred1 ++ pred2) (gt1 ++ gt2) = Ok a /\
    (a * inject_Z (numel pred1 + numel pred2) ==
     a1 * inject_Z (numel pred1) + a2 * inject_Z (numel pred2))%Q.
Proof.
  intros Hlen _ H1 H2.
  assert (N1 : pred1 <> []) by (intros ->; discriminate H1).
  assert (N2 : pred2 <> []) by (intros ->; discriminate H2).
  rewrite (binary_accuracy_ok _ _ N1) in H1. injection H1 as <-.
  rewrite (binary_accuracy_ok _ _ N2) in H2. injection H2 as <-.
  assert (N : pred1 ++ pred2 <> []) by (destruct pred1; [congruence|discriminate]).
  rewrite (binary_accuracy_ok _ _ N). eexists. split; [reflexivity|].
  assert (En : numel (pred1 ++ pred2) = numel pred1 + numel pred2).
  { unfold numel, len. rewrite length_app. lia. }
  assert (Eh : hits (pred1 ++ pred2) (gt1 ++ gt2) = hits pred1 gt1 + hits pred2 gt2).
  { unfold hits. rewrite combine_app_same by exact Hlen.
    now rewrite map_app, where_numel_app. }
  rewrite En, Eh.
  apply numel_pos in N1, N2.
  assert (Q1 : ~ (inject_Z (numel pred1) == 0)%Q).
  { change 0%Q with (inject_Z 0). rewrite inject_Z_injective. lia. }
  assert (Q2 : ~ (inject_Z (numel pred2) == 0)%Q).
  { change 0%Q with (inject_Z 0). rewrite inject_Z_injective. lia. }
  assert (Q12 : ~ (inject_Z (numel pred1 + numel pred2) == 0)%Q).
  { change 0%Q with (inject_Z 0). rewrite inject_Z_injective. lia. }
  rewrite inject_Z_plus in *. field.
  repeat split; try assumption. now rewrite inject_Z_plus.
Qed.

(** * Properties of [test] and [train] *)

Lemma Qsum_fold_eq l : forall acc,
  (fold_left Qplus l acc == acc + inject_Z 0 + fold_left Qplus l 0)%Q.
Proof.
  induction l as [|x l IH]; intros acc; cbn [fold_left].
  - unfold inject_Z. ring.
  - rewrite IH. rewrite (IH (0 + x)%Q). unfold inject_Z. ring.
Qed.

Lemma Qsum_all_one l :
  Forall (fun a => (a == 1)%Q) l -> (Qsum l == inject_Z (len l))%Q.
Proof.
  unfold Qsum, len. induction 1 as [|x l Hx H IH]; [reflexivity|].
  cbn [fold_left List.length]. rewrite Qsum_fold_eq, IH, Hx.
  rewrite Nat2Z.inj_succ. unfold Z.succ. rewrite inject_Z_plus.
  unfold inject_Z. ring.
Qed.

Section LoopProperties.

Context {Net Input : Type}.
Context (forward : Net -> Input -> tensor).
Context (loss_fn : tensor -> tensor -> Q).
Context (optimizer_step : Net -> Input -> tensor -> Net).

Lemma last_index_cons i nb (b : batch Input) rest :
  last_index (i + 1) (Some i) rest = last_index i nb (b :: rest).
Proof.
  unfold last_index, len. destruct rest as [|b' rest].
  - cbn. f_equal. lia.
  - f_equal. cbn [List.length]. lia.
Qed.

Lemma test_for_ok model dataloader : forall i nb L A,
  (forall b, In b dataloader -> forward model (fst b) <> []) ->
  test_for forward loss_fn model dataloader i nb L A =
  Ok (last_index i nb dataloader,
      (fold_left Qplus (batch_losses forward loss_fn model dataloader) L,
       fold_left Qplus (batch_accuracies forward model dataloader) A)).
Proof.
  induction dataloader as [|[X y] rest IH]; intros i nb L A H; [reflexivity|].
  cbn [test_for].
  rewrite binary_accuracy_ok by (apply (H (X, y)); now left).
  cbn [bind]. rewrite IH by (intros b Hb; apply H; now right).
  now rewrite (last_index_cons i nb (X, y) rest).
Qed.

Lemma train_for_ok dataloader : forall model i nb L A,
  (forall net b, In b dataloader -> forward net (fst b) <> []) ->
  train_for forward loss_fn optimizer_step model dataloader i nb L A =
  Ok (fold_left (fun net b => optimizer_step net (fst b) (snd b)) dataloader model,
      (last_index i nb dataloader,
       (fold_left Qplus
          (train_losses forward loss_fn optimizer_step model dataloader) L,
        fold_left Qplus
          (train_accuracies forward optimizer_step model dataloader) A))).
Proof.
  induction dataloader as [|[X y] rest IH]; intros model i nb L A H;
    [reflexivity|].
  cbn [train_for].
  rewrite binary_accuracy_ok by (apply (H model (X, y)); now left).
  cbn [bind]. rewrite IH by (intros net b Hb; apply H; now right).
  now rewrite (last_index_cons i nb (X, y) rest).
Qed.


Lemma float_div_ok x n : n <> 0 -> float_div x n = Ok (x / inject_Z n)%Q.
Proof.
  intros H. unfold float_div. destruct (n =? 0) eqn:E; [|reflexivity].
  apply Z.eqb_eq in E. congruence.
Qed.


(** X12.  So the accuracy reported by [test] can exceed 1: when every entry
    of every batch is predicted within 0.1, on [n >= 2] batches it is
    [n / (n - 1)]. *)
Theorem test_accuracy_exceeds_one dataloader model :
  2 <= len dataloader ->
  (forall b, In b dataloader ->
     forward model (fst b) <> [] /\
     List.length (forward model (fst b)) = List.length (snd b) /\
     forall p g, In (p, g) (combine (forward model (fst b)) (snd b)) ->
                 (Qabs (p - g) < 0.1)%Q) ->
  exists loss acc,
    test forward loss_fn dataloader model = Ok (loss, acc) /\
    (acc == inject_Z (len dataloader) / inject_Z (len dataloader - 1))%Q /\
    (1 < acc)%Q.
Proof.
  intros Hn H. unfold test.
  rewrite (test_for_ok model dataloader 0 None 0 0)
    by (intros b Hb; apply (H b Hb)).
  cbn [bind fst snd]. unfold last_index.
  destruct dataloader as [|b0 rest] eqn:Edl;
    [unfold len in Hn; cbn in Hn; lia|].
  rewrite <- Edl in *. clear Edl.
  rewrite Z.add_0_l.
  rewrite float_div_ok by (unfold batch, tensor in *; lia). cbn [bind].
  rewrite float_div_ok by (unfold batch, tensor in *; lia). cbn [bind].
  do 2 eexists. split; [reflexivity|].
  assert (S1 : (Qsum (batch_accuracies forward model dataloader)
                == inject_Z (len dataloader))%Q).
  { rewrite Qsum_all_one.
    - unfold batch_accuracies, len. now rewrite length_map.
    - apply Forall_map, Forall_forall. intros b Hb.
      destruct (H b Hb) as (N & Hlen & Hc).
      now apply accuracy_all_close. }
  assert (Hpos : (0 < inject_Z (len dataloader - 1))%Q)
    by (rewrite <- (Zlt_Qlt 0); unfold batch, tensor in *; lia).
  split.
  - rewrite S1. reflexivity.
  - rewrite S1. apply Qlt_shift_div_l; [exact Hpos|].
    rewrite Qmult_1_l, <- Zlt_Qlt. unfold batch, tensor in *. lia.
Qed.


End LoopProperties.

(** * Properties of [create_dataloaders] *)

Lemma slice_split {A} (l : list A) i : slice_to l i ++ slice_from l i = l.
Proof. unfold slice_to, slice_from. apply firstn_skipn. Qed.

(** X16.  [create_dataloaders] cuts the samples and the targets at the same
    position: the training part followed by the test part is the input, in
    order, for all values of [val_split]; and when there are as many
    targets as samples the two training parts have the same length, and so
    have the two test parts. *)
Theorem create_dataloaders_splits {Sample Target : Type}
  (train_x : list Sample) (train_y : list Target) (batch_size : Z) (val_split : Q) :
  exists xa xb ya yb,
    xa ++ xb = train_x /\ ya ++ yb = train_y /\
    (List.length train_x = List.length train_y ->
     List.length xa = List.length ya /\ List.length xb = List.length yb) /\
    forall (Input Dataset : Type)
           (TensorDataset : list Sample -> list Target -> Dataset)
           (DataLoader : Dataset -> Z -> list (batch Input)),
      create_dataloaders TensorDataset DataLoader train_x train_y batch_size
        val_split =
      (DataLoader (TensorDataset xa ya) batch_size,
       DataLoader (TensorDataset xb yb) batch_size).
Proof.
  set (idx := int_of_float ((1 - val_split) * inject_Z (len train_x))%Q).
  exists (slice_to train_x idx), (slice_from train_x idx),
         (slice_to train_y idx), (slice_from train_y idx).
  split; [apply slice_split|]. split; [apply slice_split|]. split.
  - intros H. unfold slice_to, slice_from, len. rewrite H.
    rewrite !length_firstn, !length_skipn. rewrite H. split; reflexivity.
  - reflexivity.
Qed.

(** * Properties of the label encoding *)

Lemma contains_In x l : contains x l = true <-> In x l.
Proof.
  unfold contains. rewrite existsb_exists. split.
  - intros (y & Hy & E). apply String.eqb_eq in E. now subst.
  - intros H. exists x. split; [exact H | apply String.eqb_refl].
Qed.

Lemma map_seq_nth {A B} (F : A -> B) (d : A) l :
  map (fun j => F (nth j l d)) (seq 0 (List.length l)) = map F l.
Proof.
  induction l as [|x l IH]; [reflexivity|].
  cbn [List.length seq map nth]. f_equal.
  rewrite <- seq_shift, map_map. exact IH.
Qed.

(** X17.  The labels of the exercise have one row per sample and one column
    per element of the list, in the order of the list; an entry is 1 when
    the element is among the elements of the sample and 0 otherwise. *)
Theorem encode_elements_rows e es Elements :
  encode_elements (e :: es) Elements =
  map (fun elements =>
         map (fun element => astype_int (contains element elements)) (e :: es))
      Elements /\
  forall element elements,
    (In element elements -> astype_int (contains element elements) = 1) /\
    (~ In element elements -> astype_int (contains element elements) = 0).
Proof.
  split.
  - unfold encode_elements, np_transpose.
    rewrite <- (map_seq_nth
                  (fun elements =>
                     map (fun element => astype_int (contains element elements))
                       (e :: es)) [] Elements).
    cbn [map]. apply map_ext_in. intros j Hj. f_equal.
    + exact (map_nth (fun elements => astype_int (contains e elements))
               Elements [] j).
    + rewrite map_map. apply map_ext. intros el.
      exact (map_nth (fun elements => astype_int (contains el elements))
               Elements [] j).
  - intros element elements. split; intros H.
    + apply contains_In in H. now rewrite H.
    + destruct (contains element elements) eqn:E; [|reflexivity].
      apply contains_In in E. contradiction.
Qed.

(** * Properties of the balancing cell *)

Lemma np_where_eq_In train_y v i :
  In i (np_where_eq train_y v) <-> nth_error train_y i = Some v.
Proof.
  unfold np_where_eq. rewrite filter_In, in_seq, Z.eqb_eq. split.
  - intros [[_ Hi] Hn]. cbn in Hi.
    rewrite (nth_error_nth' train_y (v + 1) Hi). now rewrite Hn.
  - intros H.
    assert (Hi : (i < List.length train_y)%nat)
      by (apply nth_error_Some; congruence).
    split; [cbn; lia|]. now apply nth_error_nth.
Qed.

Lemma np_where_eq_nil train_y v : np_where_eq train_y v = [] <-> ~ In v train_y.
Proof.
  split.
  - intros E H. apply In_nth_error in H as [i Hi].
    apply np_where_eq_In in Hi. rewrite E in Hi. destruct Hi.
  - intros H. destruct (np_where_eq train_y v) as [|i l] eqn:E; [reflexivity|].
    exfalso. apply H. apply (nth_error_In train_y i).
    apply np_where_eq_In. rewrite E. now left.
Qed.

Lemma take_ok {A} (l : list A) ids :
  Forall (fun i => (i < List.length l)%nat) ids ->
  exists xs, take l ids = Ok xs /\
             Forall2 (fun i x => nth_error l i = Some x) ids xs.
Proof.
  induction 1 as [|i ids Hi H IH]; [exists []; split; constructor|].
  destruct IH as (xs & E & F). cbn [take].
  destruct (nth_error l i) as [x|] eqn:En.
  - exists (x :: xs). rewrite E. split; [reflexivity | now constructor].
  - apply nth_error_None in En. lia.
Qed.

Lemma Forall2_nth_map {A} (l : list A) d ids xs :
  Forall2 (fun i x => nth_error l i = Some x) ids xs ->
  xs = map (fun i => nth i l d) ids.
Proof.
  induction 1 as [|i x ids xs Hi H IH]; [reflexivity|].
  cbn [map]. f_equal; [|exact IH]. symmetry. now apply nth_error_nth.
Qed.

Lemma nth_error_combine {A B} (l : list A) (r : list B) i x y :
  nth_error l i = Some x -> nth_error r i = Some y -> In (x, y) (combine l r).
Proof.
  revert r i. induction l as [|a l IH]; intros [|b r] [|i]; cbn;
    try discriminate.
  - intros [= ->] [= ->]. now left.
  - intros Hx Hy. right. eapply IH; eassumption.
Qed.

Lemma Forall2_combine_In {A B} (l : list A) (r : list B) ids xs ys :
  Forall2 (fun i x => nth_error l i = Some x) ids xs ->
  Forall2 (fun i y => nth_error r i = Some y) ids ys ->
  forall x y, In (x, y) (combine xs ys) -> In (x, y) (combine l r).
Proof.
  intros H. revert ys. induction H as [|i x ids xs Hi H IH]; intros ys Hy.
  - inversion Hy. intros x y [].
  - inversion Hy as [|i' y' ids' ys' Hi' Hy']; subst.
    intros x0 y0 [[= <- <-] | Hin].
    + eapply nth_error_combine; eassumption.
    + eapply IH; eassumption.
Qed.

Lemma map_all_equal {A B} (f : A -> B) c l :
  (forall x, In x l -> f x = c) -> map f l = repeat c (List.length l).
Proof.
  induction l as [|x l IH]; intros H; [reflexivity|].
  cbn. f_equal; [apply H; now left | apply IH; intros y Hy; apply H; now right].
Qed.

Section BalanceProperties.

Context (rng : nat -> nat) (shuffle : list nat -> list nat).

Lemma random_choice_ok a size :
  a <> [] ->
  exists l, random_choice rng a size = Ok l /\
            List.length l = size /\ forall i, In i l -> In i a.
Proof.
  intros N. destruct a as [|d a]; [congruence|].
  eexists. split; [destruct size; reflexivity|].
  split; [now rewrite length_map, length_seq|].
  intros i Hi. apply in_map_iff in Hi as (j & <- & _).
  apply nth_In. apply Nat.mod_upper_bound. discriminate.
Qed.

(** X18.  When some sample is labelled 0, or none is labelled 1, the
    balancing cell returns as many samples labelled 1 as samples labelled
    0: the balanced labels are a rearrangement of [k] ones and [k] zeros,
    for [k] the number of samples labelled 1; and every balanced sample
    still carries its own label. *)
Theorem downsample_balanced {A} (train_x : list A) train_y :
  (forall l, Permutation l (shuffle l)) ->
  List.length train_x = List.length train_y ->
  let k := List.length (np_where_eq train_y 1) in
  In 0 train_y \/ k = 0%nat ->
  exists xb yb,
    downsample rng shuffle train_x train_y = Ok (xb, yb) /\
    Permutation yb (repeat 1 k ++ repeat 0 k) /\
    List.length xb = (2 * k)%nat /\
    forall x y, In (x, y) (combine xb yb) -> In (x, y) (combine train_x train_y).
Proof.
  intros Hperm Hlen k Hzero. unfold downsample.
  assert (HB : exists B,
             random_choice rng (np_where_eq train_y 0) k = Ok B /\
             List.length B = k /\
             forall i, In i B -> In i (np_where_eq train_y 0)).
  { destruct (np_where_eq train_y 0) as [|i0 N] eqn:EN.
    - destruct Hzero as [H | H].
      + apply np_where_eq_nil in EN. contradiction.
      + exists []. rewrite H. repeat split; auto.
    - apply random_choice_ok. discriminate. }
  destruct HB as (B & EB & LB & HBin). fold k. rewrite EB. cbn [bind].
  set (ids := shuffle (np_where_eq train_y 1 ++ B)).
  assert (P : Permutation (np_where_eq train_y 1 ++ B) ids) by apply Hperm.
  assert (Hlab : forall i, In i ids ->
            nth_error train_y i = Some 1 \/ nth_error train_y i = Some 0).
  { intros i Hi. apply (Permutation_in _ (Permutation_sym P)) in Hi.
    apply in_app_iff in Hi as [Hi | Hi].
    - left. now apply np_where_eq_In.
    - right. now apply np_where_eq_In, HBin. }
  assert (Hy : Forall (fun i => (i < List.length train_y)%nat) ids).
  { apply Forall_forall. intros i Hi. apply nth_error_Some.
    destruct (Hlab i Hi) as [E | E]; rewrite E; discriminate. }
  assert (Hx : Forall (fun i => (i < List.length train_x)%nat) ids)
    by now rewrite Hlen.
  destruct (take_ok train_x ids Hx) as (xb & Ex & Fx).
  destruct (take_ok train_y ids Hy) as (yb & Ey & Fy).
  rewrite Ex. cbn [bind]. rewrite Ey. cbn [bind].
  exists xb, yb. split; [reflexivity|]. split; [|split].
  - rewrite (Forall2_nth_map train_y 0 ids yb Fy).
    rewrite <- (Permutation_map (fun i => nth i train_y 0) P), map_app.
    rewrite (map_all_equal _ 1 (np_where_eq train_y 1)).
    + rewrite (map_all_equal _ 0 B).
      * rewrite LB. apply Permutation_refl.
      * intros i Hi. apply nth_error_nth. now apply np_where_eq_In, HBin.
    + intros i Hi. apply nth_error_nth. now apply np_where_eq_In.
  - rewrite <- (Forall2_length Fx).
    rewrite <- (Permutation_length P), length_app, LB. fold k. lia.
  - exact (Forall2_combine_In train_x train_y ids xb yb Fx Fy).
Qed.

(** X19.  When every sample is labelled 1 and there is at least one, the
    balancing cell fails: [np.random.choice] raises ValueError on the empty
    array of 'no Ag' indices. *)
Theorem downsample_needs_a_zero {A} (train_x : list A) train_y :
  ~ In 0 train_y -> In 1 train_y ->
  downsample rng shuffle train_x train_y = Raise ValueError.
Proof.
  intros H0 H1. unfold downsample.
  apply np_where_eq_nil in H0. rewrite H0.
  destruct (np_where_eq train_y 1) as [|i l] eqn:E; [|reflexivity].
  apply np_where_eq_nil in E. contradiction.
Qed.

End BalanceProperties.

(** * The further properties at concrete inputs *)

Lemma trainer_loop_stops_witness :
  let s := __init__ 1 false 0 "checkpoint.pt" in
  let epochs := [(1%Q, [1]); (2%Q, [2]); (0.5%Q, [3])] in
  early_stop s = false /\
  exists k,
    (k <= List.length epochs)%nat /\
    trainer_loop weights_state_dict s epochs =
      (run weights_state_dict s (firstn k epochs),
       run_events weights_state_dict s (firstn k epochs)) /\
    (forall j, (j < k)%nat ->
       early_stop (run weights_state_dict s (firstn j epochs)) = false) /\
    (early_stop (run weights_state_dict s (firstn k epochs)) = true \/
     k = List.length epochs).
Proof.
  cbv zeta. split; [reflexivity|].
  exact (trainer_loop_stops_at_first_signal weights_state_dict
           (__init__ 1 false 0 "checkpoint.pt")
           [(1%Q, [1]); (2%Q, [2]); (0.5%Q, [3])] eq_refl).
Defined.

Lemma early_stop_iff_witness :
  let s0 := __init__ 2 false 0 "checkpoint.pt" in
  let calls := [(1%Q, [1]); (2%Q, [2]); (3%Q, [3]); (0.5%Q, [4])] in
  1 <= 2 /\
  (early_stop (run weights_state_dict s0 calls) = true <->
   exists k, (k <= List.length calls)%nat /\
             2 <= counter (run weights_state_dict s0 (firstn k calls))).
Proof.
  cbv zeta.
  assert (H0 : 1 <= 2) by lia.
  split; [exact H0|].
  exact (early_stop_iff_counter_reached weights_state_dict 2 false 0%Q
           "checkpoint.pt" [(1%Q, [1]); (2%Q, [2]); (3%Q, [3]); (0.5%Q, [4])] H0).
Defined.

Lemma trainer_loop_patience_witness :
  let r := trainer_loop weights_state_dict (__init__ 2 false 0 "checkpoint.pt")
             [(1%Q, [1]); (2%Q, [2]); (3%Q, [3]); (0.5%Q, [4])] in
  1 <= 2 /\
  Z.min (len [(1%Q, [1]); (2%Q, [2]); (3%Q, [3]); (0.5%Q, [4])]) (2 + 1)
    <= len (snd r) /\
  counter (fst r) <= 2 /\
  (early_stop (fst r) = true -> counter (fst r) = 2).
Proof.
  cbv zeta.
  assert (H0 : 1 <= 2) by lia.
  split; [exact H0|].
  exact (trainer_loop_patience weights_state_dict 2 false 0%Q "checkpoint.pt"
           [(1%Q, [1]); (2%Q, [2]); (3%Q, [3]); (0.5%Q, [4])] H0).
Defined.

Lemma binary_accuracy_one_iff_witness :
  (List.length [0.95; 0.02; 1]%Q = List.length [1; 0; 1]%Q /\
   [0.95; 0.02; 1]%Q <> []) /\
  exists a,
    binary_accuracy [0.95; 0.02; 1]%Q [1; 0; 1]%Q = Ok a /\
    ((a == 1)%Q <->
     forall p g, In (p, g) (combine [0.95; 0.02; 1]%Q [1; 0; 1]%Q) ->
                 (Qabs (p - g) < 0.1)%Q).
Proof.
  assert (H0 : List.length [0.95; 0.02; 1]%Q = List.length [1; 0; 1]%Q)
    by reflexivity.
  assert (H1 : [0.95; 0.02; 1]%Q <> []) by discriminate.
  split; [split; assumption|].
  exact (binary_accuracy_one_iff [0.95; 0.02; 1]%Q [1; 0; 1]%Q H0 H1).
Defined.

Lemma binary_accuracy_range_witness :
  List.length [0.95; 0.5; 0.3]%Q = List.length [1; 1; 0]%Q /\
  exists a,
    binary_accuracy [0.95; 0.5; 0.3]%Q [1; 1; 0]%Q = Ok a /\ (0 <= a <= 1)%Q.
Proof.
  assert (H0 : List.length [0.95; 0.5; 0.3]%Q = List.length [1; 1; 0]%Q)
    by reflexivity.
  split; [exact H0|].
  exact (binary_accuracy_range [0.95; 0.5; 0.3]%Q [1; 1; 0]%Q H0).
Defined.

Lemma binary_accuracy_app_witness :
  (List.length [0.95; 0.5]%Q = List.length [1; 1]%Q /\
   List.length [0.3]%Q = List.length [0]%Q /\
   binary_accuracy [0.95; 0.5]%Q [1; 1]%Q = Ok (1 / 2)%Q /\
   binary_accuracy [0.3]%Q [0]%Q = Ok (0 / 1)%Q) /\
  exists a,
    binary_accuracy ([0.95; 0.5] ++ [0.3])%Q ([1; 1] ++ [0])%Q = Ok a /\
    (a * inject_Z (numel [0.95; 0.5]%Q + numel [0.3]%Q) ==
     (1 / 2) * inject_Z (numel [0.95; 0.5]%Q)
     + (0 / 1) * inject_Z (numel [0.3]%Q))%Q.
Proof.
  assert (H0 : List.length [0.95; 0.5]%Q = List.length [1; 1]%Q) by reflexivity.
  assert (H0' : List.length [0.3]%Q = List.length [0]%Q) by reflexivity.
  assert (H1 : binary_accuracy [0.95; 0.5]%Q [1; 1]%Q = Ok (1 / 2)%Q)
    by reflexivity.
  assert (H2 : binary_accuracy [0.3]%Q [0]%Q = Ok (0 / 1)%Q) by reflexivity.
  split; [repeat split; assumption|].
  exact (binary_accuracy_app [0.95; 0.5]%Q [1; 1]%Q [0.3]%Q [0]%Q
           (1 / 2)%Q (0 / 1)%Q H0 H0' H1 H2).
Defined.


Lemma test_accuracy_exceeds_one_witness :
  let dataloader := [([1; 2]%Q, [1; 2]%Q); ([3]%Q, [3]%Q); ([4]%Q, [4]%Q)] in
  2 <= len dataloader /\
  exists loss acc,
    test scale_forward abs_loss dataloader 1%Q = Ok (loss, acc) /\
    (acc == inject_Z (len dataloader) / inject_Z (len dataloader - 1))%Q /\
    (1 < acc)%Q.
Proof.
  cbv zeta.
  assert (H0 : 2 <= len [([1; 2]%Q, [1; 2]%Q); ([3]%Q, [3]%Q); ([4]%Q, [4]%Q)])
    by (unfold len; simpl; lia).
  split; [exact H0|].
  apply (test_accuracy_exceeds_one scale_forward abs_loss _ 1%Q H0).
  intros b [<- | [<- | [<- | []]]]; (split; [discriminate|]);
    (split; [reflexivity|]); cbn;
    intros p g H;
    repeat match goal with
           | H : _ \/ _ |- _ => destruct H as [H | H]
           | H : (_, _) = (_, _) |- _ => injection H as <- <-
           | H : False |- _ => destruct H
           end; reflexivity.
Defined.


Lemma downsample_balanced_witness :
  let train_x := ["a"; "b"; "c"; "d"; "e"]%string in
  let train_y := [0; 1; 0; 0; 1] in
  ((forall l : list nat, Permutation l (rev l)) /\
   List.length train_x = List.length train_y /\
   (In 0 train_y \/ List.length (np_where_eq train_y 1) = 0%nat)) /\
  exists xb yb,
    downsample (fun j => (7 * j + 3)%nat) (@rev nat) train_x train_y = Ok (xb, yb) /\
    Permutation yb (repeat 1 (List.length (np_where_eq train_y 1)) ++
                    repeat 0 (List.length (np_where_eq train_y 1))) /\
    List.length xb = (2 * List.length (np_where_eq train_y 1))%nat /\
    forall x y, In (x, y) (combine xb yb) -> In (x, y) (combine train_x train_y).
Proof.
  cbv zeta.
  assert (H0 : forall l : list nat, Permutation l (rev l))
    by exact (@Permutation_rev nat).
  assert (H1 : List.length ["a"; "b"; "c"; "d"; "e"]%string =
               List.length [0; 1; 0; 0; 1]) by reflexivity.
  assert (H2 : In 0 [0; 1; 0; 0; 1] \/
               List.length (np_where_eq [0; 1; 0; 0; 1] 1) = 0%nat)
    by (left; simpl; auto).
  split; [repeat split; assumption|].
  exact (downsample_balanced (fun j => (7 * j + 3)%nat) (@rev nat)
           ["a"; "b"; "c"; "d"; "e"]%string [0; 1; 0; 0; 1] H0 H1 H2).
Defined.

Lemma downsample_needs_a_zero_witness :
  (~ In 0 [1; 1] /\ In 1 [1; 1]) /\
  downsample (fun j => j) (@rev nat) ["a"; "b"]%string [1; 1] = Raise ValueError.
Proof.
  assert (H0 : ~ In 0 [1; 1]).
  { intros [H | [H | []]]; discriminate H. }
  assert (H1 : In 1 [1; 1]) by (left; reflexivity).
  split; [split; assumption|].
  exact (downsample_needs_a_zero (fun j => j) (@rev nat)
           ["a"; "b"]%string [1; 1] H0 H1).
Defined.

(** * Properties of the controller on floats *)

Lemma neg_neg x : Float.neg (Float.neg x) = x.
Proof. destruct x; cbn; try reflexivity. now rewrite Qopp_opp_eq. Qed.

Lemma is_nan_neg x : Float.is_nan (Float.neg x) = Float.is_nan x.
Proof. now destruct x. Qed.

(** On numbers the second embedding does what the first one does. *)
Lemma call_embed {Model StateDict : Type} (state_dict : Model -> StateDict)
  s v m :
  Float.__call__ state_dict (embed s) (Float.Num v) m =
  (embed (fst (__call__ state_dict s v m)),
   map embed_event (snd (__call__ state_dict s v m))).
Proof.
  destruct s as [p vb c [b|] es vl d f];
    unfold Float.__call__, __call__, Float.save_checkpoint, save_checkpoint, embed;
    cbn.
  - destruct (Qltb (- v) (b + d)); cbn.
    + destruct (c + 1 >=? p); reflexivity.
    + destruct vb; reflexivity.
  - destruct vb; reflexivity.
Qed.

Lemma run_embed {Model StateDict : Type} (state_dict : Model -> StateDict)
  calls : forall s,
  Float.run state_dict (embed s)
    (map (fun c => (Float.Num (fst c), snd c)) calls) =
  embed (run state_dict s calls).
Proof.
  induction calls as [|[v m] calls IH]; intros s; [reflexivity|].
  rewrite run_cons. cbn [fst snd]. rewrite <- IH.
  unfold Float.run. cbn [map fold_left fst snd].
  now rewrite call_embed.
Qed.

Section FloatProperties.

Context {Model StateDict : Type} (state_dict : Model -> StateDict).

Lemma float_run_snoc s cs c :
  Float.run state_dict s (cs ++ [c]) =
  fst (Float.__call__ state_dict (Float.run state_dict s cs) (fst c) (snd c)).
Proof. unfold Float.run. now rewrite fold_left_app. Qed.

Lemma float_run_cons s c cs :
  Float.run state_dict s (c :: cs) =
  Float.run state_dict (fst (Float.__call__ state_dict s (fst c) (snd c))) cs.
Proof. reflexivity. Qed.

Lemma float_saves_checkpoint (b : bool) (msg : Float.message) (sd : StateDict) f :
  Float.saves ((if b then [Float.TraceFunc msg] else []) ++ [Float.TorchSave sd f])
  = 1%nat.
Proof. destruct b; reflexivity. Qed.

(** One call, field by field. *)
Lemma float_call_fields s v m :
  let s' := fst (Float.__call__ state_dict s v m) in
  let evs := snd (Float.__call__ state_dict s v m) in
  Float.delta s' = Float.delta s /\
  match Float.best_score s with
  | None =>
      Float.best_score s' = Some (Float.neg v) /\ Float.val_loss_min s' = v /\
      Float.saves evs = 1%nat
  | Some b =>
      if Float.ltb (Float.neg v) (Float.add b (Float.delta s))
      then Float.best_score s' = Some b /\
           Float.val_loss_min s' = Float.val_loss_min s /\
           Float.saves evs = 0%nat
      else Float.best_score s' = Some (Float.neg v) /\
           Float.val_loss_min s' = v /\ Float.saves evs = 1%nat
  end.
Proof.
  unfold Float.__call__, Float.save_checkpoint.
  destruct (Float.best_score s) as [b|] eqn:Hb; cbn.
  - destruct (Float.ltb _ _); cbn.
    + destruct (Float.counter s + 1 >=? Float.patience s); cbn; auto.
    + repeat split. apply float_saves_checkpoint.
  - repeat split. apply float_saves_checkpoint.
Qed.

(** After any calls on a fresh controller, [val_loss_min] is [np.Inf]
    before the first call and the negation of [best_score] from then on. *)
Lemma float_run_inv p v d f calls :
  let s := Float.run state_dict (Float.__init__ p v d f) calls in
  Float.delta s = d /\
  match Float.best_score s with
  | None => Float.val_loss_min s = Float.PInf /\ calls = []
  | Some b => Float.val_loss_min s = Float.neg b /\ calls <> []
  end.
Proof.
  induction calls as [|[w m] calls IH] using rev_ind; [now cbn|].
  cbv zeta in *. rewrite float_run_snoc. cbn [fst snd].
  destruct IH as [D IH].
  pose proof (float_call_fields
                (Float.run state_dict (Float.__init__ p v d f) calls) w m) as H.
  cbv zeta in H. destruct H as [D' H]. rewrite D'. split; [exact D|].
  assert (N : calls ++ [(w, m)] <> []) by (destruct calls; discriminate).
  destruct (Float.best_score (Float.run state_dict (Float.__init__ p v d f) calls))
    as [b|].
  - destruct (Float.ltb _ _); destruct H as (-> & -> & _).
    + split; [apply IH | exact N].
    + split; [now rewrite neg_neg | exact N].
  - destruct H as (-> & -> & _). split; [now rewrite neg_neg | exact N].
Qed.

(** If no loss is NaN, [best_score] is not NaN either. *)
Lemma float_run_not_nan p v d f calls :
  Forall (fun c => Float.is_nan (fst c) = false) calls ->
  forall b,
    Float.best_score (Float.run state_dict (Float.__init__ p v d f) calls) = Some b ->
    Float.is_nan b = false.
Proof.
  induction calls as [|[w m] calls IH] using rev_ind; [discriminate|].
  intros HF b. apply Forall_app in HF as [HF Hw].
  apply Forall_cons_iff in Hw as [Hw _]. cbn [fst] in Hw.
  rewrite float_run_snoc. cbn [fst snd].
  pose proof (float_call_fields
                (Float.run state_dict (Float.__init__ p v d f) calls) w m) as H.
  cbv zeta in H. destruct H as [_ H].
  destruct (Float.best_score (Float.run state_dict (Float.__init__ p v d f) calls))
    as [b0|].
  - destruct (Float.ltb _ _); destruct H as (-> & _); intros [= <-].
    + now apply IH.
    + now rewrite is_nan_neg.
  - destruct H as (-> & _). intros [= <-]. now rewrite is_nan_neg.
Qed.

Lemma float_le_refl x : Float.is_nan x = false -> Float.le x x.
Proof. destruct x; cbn; try discriminate; auto. intros _. apply Qle_refl. Qed.

Lemma float_le_trans x y z : Float.le x y -> Float.le y z -> Float.le x z.
Proof.
  destruct x, y, z; cbn; try tauto. apply Qle_trans.
Qed.

(** The step behind the monotonicity of [val_loss_min]. *)
Lemma float_step_le s w m :
  Float.le (Float.Num 0) (Float.delta s) ->
  Float.is_nan w = false ->
  match Float.best_score s with
  | None => Float.val_loss_min s = Float.PInf
  | Some b => Float.val_loss_min s = Float.neg b /\ Float.is_nan b = false
  end ->
  Float.le (Float.val_loss_min (fst (Float.__call__ state_dict s w m)))
           (Float.val_loss_min s).
Proof.
  intros Hd Hw Hs.
  pose proof (float_call_fields s w m) as H. cbv zeta in H.
  destruct H as [_ H].
  destruct (Float.best_score s) as [b|].
  - destruct Hs as [Hv Hb].
    destruct (Float.ltb (Float.neg w) (Float.add b (Float.delta s))) eqn:L;
      destruct H as (_ & -> & _).
    + apply float_le_refl. rewrite Hv. now rewrite is_nan_neg.
    + rewrite Hv. clear Hv.
      destruct (Float.delta s) as [d| | |]; cbn in Hd; try contradiction;
        destruct b as [b| | |]; try discriminate Hb;
        destruct w as [w| | |]; try discriminate Hw;
        cbn in *; try discriminate; try exact I.
      apply Qltb_false in L. lra.
  - destruct H as (_ & -> & _). rewrite Hs.
    destruct w; cbn; try discriminate; exact I.
Qed.

Lemma float_last_saved_loss cs : forall s acc,
  (forall b, Float.best_score s = Some b -> acc = Some (Float.neg b)) ->
  forall b, Float.best_score (Float.run state_dict s cs) = Some b ->
  Float.last_saved_loss state_dict s cs acc = Some (Float.neg b).
Proof.
  induction cs as [|[w m] cs IH]; intros s acc Hacc b Hb.
  - cbn in *. now apply Hacc.
  - rewrite float_run_cons in Hb. cbn [Float.last_saved_loss fst snd] in *.
    pose proof (float_call_fields s w m) as H. cbv zeta in H.
    destruct H as [_ H].
    destruct (Float.__call__ state_dict s w m) as [s' evs]. cbn [fst snd] in *.
    apply (IH s'); [|exact Hb].
    intros b' Hb'.
    destruct (Float.best_score s) as [b0|].
    + destruct (Float.ltb _ _); destruct H as (E1 & _ & ->); cbn.
      * apply Hacc. congruence.
      * rewrite E1 in Hb'. injection Hb' as <-. now rewrite neg_neg.
    + destruct H as (E1 & _ & ->). cbn.
      rewrite E1 in Hb'. injection Hb' as <-. now rewrite neg_neg.
Qed.


Lemma float_add_le x y e :
  Float.le x y -> Float.le (Float.add x (Float.Num e)) (Float.add y (Float.Num e)).
Proof.
  destruct x, y; cbn; try tauto. intros H. lra.
Qed.

Lemma float_sub_le x d :
  (0 <= d)%Q -> Float.is_nan x = false ->
  Float.le (Float.add x (Float.neg (Float.Num d))) x.
Proof.
  intros Hd. destruct x; cbn; try discriminate; auto. intros _. lra.
Qed.

(** X2.  For a fresh controller with a finite [delta >= 0] and losses none
    of which is NaN, after at least one call [val_loss_min] is one of the
    losses seen, and no loss seen is below [val_loss_min - delta]; with
    [delta = 0] it is their minimum. *)
Theorem val_loss_min_near_minimum p v d f c calls :
  (0 <= d)%Q ->
  Forall (fun c => Float.is_nan (fst c) = false) (c :: calls) ->
  let losses := map fst (c :: calls) in
  let best :=
    Float.val_loss_min
      (Float.run state_dict (Float.__init__ p v (Float.Num d) f) (c :: calls)) in
  In best losses /\
  forall w, In w losses ->
            Float.le (Float.add best (Float.neg (Float.Num d))) w.
Proof.
  intros Hd HF losses best. subst losses best.
  assert (N : c :: calls <> []) by discriminate.
  revert N HF. generalize (c :: calls). clear c calls.
  induction l as [|[w m] l IH] using rev_ind; [congruence|]. intros _ HF.
  apply Forall_app in HF as [HF Hw].
  apply Forall_cons_iff in Hw as [Hw _]. cbn [fst] in Hw.
  set (s0 := Float.__init__ p v (Float.Num d) f) in *.
  destruct (float_run_inv p v (Float.Num d) f l) as [D I].
  fold s0 in D, I.
  pose proof (float_run_not_nan p v (Float.Num d) f l HF) as HN. fold s0 in HN.
  pose proof (float_call_fields (Float.run state_dict s0 l) w m) as H.
  cbv zeta in H. destruct H as [_ H].
  pose proof (float_step_le (Float.run state_dict s0 l) w m) as HS.
  rewrite D in HS, H. specialize (HS Hd Hw).
  rewrite float_run_snoc, map_app. cbn [fst snd map].
  destruct (Float.best_score (Float.run state_dict s0 l)) as [b|].
  - destruct I as [Hv Hl]. specialize (IH Hl HF). destruct IH as [Hin Hmin].
    specialize (HN b eq_refl). specialize (HS (conj Hv HN)).
    destruct (Float.ltb (Float.neg w) (Float.add b (Float.Num d))) eqn:L;
      destruct H as (_ & E & _); rewrite E in *.
    + split; [apply in_app_iff; now left|].
      intros w' Hw'. apply in_app_iff in Hw' as [Hw' | [<- | []]]; auto.
      rewrite Hv. clear - L HN Hw.
      destruct b as [b| | |]; try discriminate HN;
        destruct w as [w| | |]; try discriminate Hw;
        cbn in *; try discriminate; try exact I.
      apply Qltb_true in L. lra.
    + split; [apply in_app_iff; right; now left|].
      intros w' Hw'. apply in_app_iff in Hw' as [Hw' | [<- | []]].
      * eapply float_le_trans; [|apply (Hmin w' Hw')].
        apply float_add_le. exact HS.
      * now apply float_sub_le.
  - destruct I as [_ ->]. destruct H as (_ & -> & _). cbn [map app].
    split; [now left|]. intros w' [<- | []]. now apply float_sub_le.
Qed.

End FloatProperties.



Lemma val_loss_min_near_minimum_witness :
  let calls := [(Float.Num 0.5, [2]); (Float.Num 0.45, [3]); (Float.Num 0.2, [4])] in
  ((0 <= 0.1)%Q /\
   Forall (fun c : Float.pyfloat * Weights => Float.is_nan (fst c) = false)
     ((Float.PInf, [1]) :: calls)) /\
  In (Float.val_loss_min
        (Float.run weights_state_dict
           (Float.__init__ 2 false (Float.Num 0.1) "checkpoint.pt")
           ((Float.PInf, [1]) :: calls)))
     (map fst ((Float.PInf, [1]) :: calls)) /\
  forall w, In w (map fst ((Float.PInf, [1]) :: calls)) ->
    Float.le (Float.add
                (Float.val_loss_min
                   (Float.run weights_state_dict
                      (Float.__init__ 2 false (Float.Num 0.1) "checkpoint.pt")
                      ((Float.PInf, [1]) :: calls)))
                (Float.neg (Float.Num 0.1))) w.
Proof.
  cbv zeta.
  assert (H0 : (0 <= 0.1)%Q) by (unfold Qle; simpl; lia).
  assert (H1 : Forall (fun c : Float.pyfloat * Weights =>
                         Float.is_nan (fst c) = false)
                 [(Float.PInf, [1]); (Float.Num 0.5, [2]);
                  (Float.Num 0.45, [3]); (Float.Num 0.2, [4])])
    by (repeat constructor).
  split; [split; assumption|].
  exact (val_loss_min_near_minimum weights_state_dict 2 false 0.1%Q
           "checkpoint.pt" (Float.PInf, [1])
           [(Float.Num 0.5, [2]); (Float.Num 0.45, [3]); (Float.Num 0.2, [4])]
           H0 H1).
Defined.
